(** * robo-gym, UR5 obstacle avoidance environments

    A shallow embedding of [robo_gym/envs/ur5/ur5_avoidance.py]: the
    telemetry-to-observation transform, the reward computation, and the
    [reset] and [step] operations of [MovingBoxTargetUR5] and its variants.

    Numbers.  The Python code computes with IEEE binary64 values.  Here a
    value is either [NaN] or a finite number carried as a real, so that every
    finite operation is exact; infinities are outside the model.  What the
    model keeps of IEEE arithmetic is the behaviour of NaN: it is absorbing
    for the arithmetic operations and every comparison with it is false. *)

From Stdlib Require Import String.
From Stdlib Require Import Reals Lra Lia ZArith Bool List.
Import ListNotations.

Open Scope R_scope.

(** ** Floating point values *)

Module Float.

Inductive float : Type :=
| NaN
| Num (r : R).

Definition Rltb (x y : R) : bool := if Rlt_dec x y then true else false.
Definition Rleb (x y : R) : bool := if Rle_dec x y then true else false.
Definition Reqb (x y : R) : bool := if Req_dec_T x y then true else false.

Definition lift1 (f : R -> R) (a : float) : float :=
  match a with
  | Num x => Num (f x)
  | NaN => NaN
  end.

Definition lift2 (f : R -> R -> R) (a b : float) : float :=
  match a, b with
  | Num x, Num y => Num (f x y)
  | _, _ => NaN
  end.

Definition fadd : float -> float -> float := lift2 Rplus.
Definition fsub : float -> float -> float := lift2 Rminus.
Definition fmul : float -> float -> float := lift2 Rmult.
Definition fneg : float -> float := lift1 Ropp.
Definition fabs : float -> float := lift1 Rabs.
Definition fsquare : float -> float := lift1 (fun x => x * x).

(** [np.sqrt]; it is only ever applied to a sum of squares. *)
Definition fsqrt : float -> float := lift1 sqrt.

(** A division by zero gives a non-finite value. *)
Definition fdiv (a b : float) : float :=
  match a, b with
  | Num x, Num y => if Req_dec_T y 0 then NaN else Num (x / y)
  | _, _ => NaN
  end.

Definition cmp (c : R -> R -> bool) (a b : float) : bool :=
  match a, b with
  | Num x, Num y => c x y
  | _, _ => false
  end.

Definition flt : float -> float -> bool := cmp Rltb.
Definition fle : float -> float -> bool := cmp Rleb.
Definition fgt (a b : float) : bool := flt b a.
Definition fge (a b : float) : bool := fle b a.
Definition feq : float -> float -> bool := cmp Reqb.

Definition is_nan (a : float) : bool :=
  match a with
  | NaN => true
  | Num _ => false
  end.

End Float.
Export Float.

(** ** Python sequences and the numpy operations the module uses *)

Module Np.

Abbreviation array := (list float).

(** [l[i:j]] for [0 <= i <= j]. *)
Definition slice {A : Type} (i j : nat) (l : list A) : list A :=
  firstn (j - i) (skipn i l).

(** [l[-n:]]: the last [n] elements, the whole of [l] when it is shorter. *)
Definition last_n {A : Type} (n : nat) (l : list A) : list A :=
  skipn (length l - n) l.

(** [l[i:j] = v] on a numpy array, for a [v] of [j - i] elements. *)
Definition set_slice {A : Type} (i j : nat) (v l : list A) : list A :=
  firstn i l ++ v ++ skipn j l.

Fixpoint zip_with {A B C : Type} (f : A -> B -> C) (l : list A) (m : list B)
  : list C :=
  match l, m with
  | a :: l', b :: m' => f a b :: zip_with f l' m'
  | _, _ => []
  end.

Definition zeros (n : nat) : array := repeat (Num 0) n.

(** [np.nan_to_num]: NaN becomes zero, finite values are kept. *)
Definition nan_to_num (l : array) : array :=
  map (fun a => match a with NaN => Num 0 | Num r => Num r end) l.

Definition vadd : array -> array -> array := zip_with fadd.
Definition vsub : array -> array -> array := zip_with fsub.
Definition vneg : array -> array := map fneg.
Definition vabs : array -> array := map fabs.
Definition square : array -> array := map fsquare.

(** [a.sum()]; the sum of the empty array is [0.0]. *)
Definition sum (l : array) : float := fold_right fadd (Num 0) l.

(** [np.linalg.norm] of a vector. *)
Definition norm (l : array) : float := fsqrt (sum (square l)).

(** [a.size] as a number. *)
Definition size (l : array) : float := Num (INR (length l)).

End Np.
Export Np.

(** ** Boxes of [gym.spaces] *)

Module Spaces.

(** A bound of a box: a finite number, or no bound on that side ([np.inf]). *)
Record Box : Type := mk_Box {
  low : list (option R);
  high : list (option R)
}.

(** [dtype=np.float32] on a bound: the box stores the binary32 number
    nearest to it.  Between 1 and 2 in magnitude the binary32 numbers are the
    multiples of [2^-23], and the nearest multiple is taken here; the bounds
    this applies to, 1.1 and -1.1, are not halfway between two of them. *)
Definition float32 (x : R) : R := IZR (up (x * 8388608 - 1 / 2)) / 8388608.

Definition above (lo : option R) (x : float) : bool :=
  match x, lo with
  | NaN, _ => false
  | Num _, None => true
  | Num v, Some b => Rleb b v
  end.

Definition below (hi : option R) (x : float) : bool :=
  match x, hi with
  | NaN, _ => false
  | Num _, None => true
  | Num v, Some b => Rleb v b
  end.

Definition all (l : list bool) : bool := forallb (fun b => b) l.

(** [Box.contains]:
    [x.shape == self.shape and np.all(x >= self.low) and np.all(x <= self.high)]. *)
Definition contains (b : Box) (x : array) : bool :=
  Nat.eqb (length x) (length (low b))
  && all (zip_with above (low b) x)
  && all (zip_with below (high b) x).

End Spaces.
Export Spaces.

(** ** Exceptions, messages to the robot server, attributes of the environment *)

Inductive exn : Type :=
| AssertionError
| ValueError
| IndexError
| RobotServerError (msg : string)
| InvalidStateError (msg : string).

(** [robot_server_pb2.State(state=..., float_params=..., string_params=...)]. *)
Record State : Type := mk_State {
  msg_state : array;
  float_params : list (string * float);
  string_params : list (string * string)
}.

(** What the client sends: [set_state_msg] and [send_action]. *)
Inductive command : Type :=
| SetState (m : State)
| SendAction (a : array).

(** What the robot server answers to one call of [reset] or [step]: whether it
    accepts the command, and the telemetry [get_state_msg().state]. *)
Record server : Type := mk_server {
  accepted : bool;
  telemetry : array
}.

(** The attributes of an environment object that [reset], [step] and
    [_reward] read or write; [sent] records, latest first, the commands the
    client has sent to the robot server. *)
Record env : Type := mk_env {
  elapsed_steps : Z;
  state : array;
  prev_rs_state : array;
  start_position : array;
  last_position_on_success : array;
  sent : list command
}.

Definition set_elapsed_steps (v : Z) (e : env) : env :=
  mk_env v (state e) (prev_rs_state e) (start_position e)
         (last_position_on_success e) (sent e).

Definition set_state (v : array) (e : env) : env :=
  mk_env (elapsed_steps e) v (prev_rs_state e) (start_position e)
         (last_position_on_success e) (sent e).

Definition set_prev_rs_state (v : array) (e : env) : env :=
  mk_env (elapsed_steps e) (state e) v (start_position e)
         (last_position_on_success e) (sent e).

Definition set_start_position (v : array) (e : env) : env :=
  mk_env (elapsed_steps e) (state e) (prev_rs_state e) v
         (last_position_on_success e) (sent e).

Definition set_last_position_on_success (v : array) (e : env) : env :=
  mk_env (elapsed_steps e) (state e) (prev_rs_state e) (start_position e)
         v (sent e).

Definition send (c : command) (e : env) : env :=
  mk_env (elapsed_steps e) (state e) (prev_rs_state e) (start_position e)
         (last_position_on_success e) (c :: sent e).

(** ** Methods as state transformers that may raise *)

Inductive result (A : Type) : Type :=
| Ok (a : A)
| Raise (x : exn).

Arguments Ok {A} a.
Arguments Raise {A} x.

(** A method runs on the object's attributes and returns a value or raises;
    the attributes written before an exception stay written. *)
Definition M (A : Type) : Type := env -> result A * env.

Definition ret {A : Type} (a : A) : M A := fun e => (Ok a, e).

Definition raise {A : Type} (x : exn) : M A := fun e => (Raise x, e).

Definition bind {A B : Type} (m : M A) (k : A -> M B) : M B :=
  fun e =>
    match m e with
    | (Ok a, e') => k a e'
    | (Raise x, e') => (Raise x, e')
    end.

Definition get : M env := fun e => (Ok e, e).

Definition modify (f : env -> env) : M unit := fun e => (Ok tt, f e).

Declare Scope py_scope.
Delimit Scope py_scope with py.

Notation "x <- m ;; k" := (bind m (fun x => k))
  (at level 61, m at next level, right associativity) : py_scope.
Notation "' p <- m ;; k" := (bind m (fun x => match x with p => k end))
  (at level 61, p pattern, m at next level, right associativity) : py_scope.
Notation "m ;; k" := (bind m (fun _ => k))
  (at level 61, right associativity) : py_scope.

Open Scope py_scope.

(** [assert c]. *)
Definition assert (c : bool) : M unit :=
  if c then ret tt else raise AssertionError.

(** [l[i]] on a Python sequence. *)
Definition index {A : Type} (l : list A) (i : nat) : M A :=
  match nth_error l i with
  | Some a => ret a
  | None => raise IndexError
  end.

(** The [info] dictionary; its only keys are ['final_status'] and
    ['target_coord']. *)
Record info : Type := mk_info {
  final_status : option string;
  target_coord : option array
}.

(** The value of an argument that defaults to [None] and is documented as
    [list[6] or np.array[6]]. *)
Inductive joints_arg : Type :=
| PyNone
| PyList (l : array)
| NdArray (a : array).

(** Truth value of such an argument in [if initial_joint_positions:]: a list
    is true when it is not empty; an array of several elements has no truth
    value. *)
Definition truth (x : joints_arg) : M bool :=
  match x with
  | PyNone => ret false
  | PyList [] => ret false
  | PyList (_ :: _) => ret true
  | NdArray [] => ret false
  | NdArray [a] => ret (negb (feq a (Num 0)))
  | NdArray (_ :: _ :: _) => raise ValueError
  end.

Definition items (x : joints_arg) : array :=
  match x with
  | PyNone => []
  | PyList l => l
  | NdArray a => a
  end.

(** ** What the module imports from the rest of robo-gym *)

(** The methods of [UR5Env], [ur_utils.UR5] and [utils] that the module calls
    and [src/] does not contain, with scipy's rotation inverse.  The
    environments are written over any implementation of them; the facts about
    them that the proofs use are listed in [UR5Facts]. *)
Class UR5 : Type := {
  (** [UR5Env._get_robot_server_state_len] and [UR5Env._get_env_state_len] *)
  _get_robot_server_state_len : nat;
  _get_env_state_len : nat;
  (** the number of components of the box [_get_action_space] returns: 3 for
      the [DoF3] classes, 5 for the [DoF5] classes, and the arity of
      [UR5Env]'s box for the classes that inherit it *)
  action_dim : nat;
  (** [ur_utils.UR5]: the joint order mappings and the normalization *)
  _ros_joint_list_to_ur5_joint_list : array -> array;
  _ur_5_joint_list_to_ros_joint_list : array -> array;
  normalize_joint_values : array -> array;
  (** [R.from_quat(q).inv().as_quat()] *)
  quat_inv : array -> array;
  (** [utils.change_reference_frame] and [utils.cartesian_to_polar_3d] *)
  change_reference_frame : array -> array -> array -> array;
  cartesian_to_polar_3d : array -> array
}.

(** The shapes of what these methods return: three polar coordinates, six
    joints out of six. *)
Class UR5Facts (U : UR5) : Prop := {
  polar_length : forall v, length (cartesian_to_polar_3d v) = 3%nat;
  ros_to_ur5_length :
    forall l, length l = 6%nat ->
              length (_ros_joint_list_to_ur5_joint_list l) = 6%nat;
  normalize_length :
    forall l, length (normalize_joint_values l) = length l
}.

(** ** [MovingBoxTargetUR5] *)

Section MovingBoxTargetUR5.

Context {U : UR5}.

Definition max_episode_steps : Z := 1000.

(** [_get_observation_space]: no bound on the three target coordinates,
    [-1.0 - 0.1] and [1.0 + 0.1] on the six joint positions and on the six
    deltas, stored by [spaces.Box(low=min_obs, high=max_obs, dtype=np.float32)]
    as binary32 numbers. *)
Definition _get_observation_space : Box :=
  let pos_tolerance := 0.1 in
  let max_joint_positions := repeat (Some (1.0 + pos_tolerance)) 6 in
  let min_joint_positions := repeat (Some (-1.0 - pos_tolerance)) 6 in
  let target_range := repeat (@None R) 3 in
  let max_delta_start_positions := repeat (Some (1.0 + pos_tolerance)) 6 in
  let min_delta_start_positions := repeat (Some (-1.0 - pos_tolerance)) 6 in
  let max_obs := target_range ++ max_joint_positions ++ max_delta_start_positions in
  let min_obs := target_range ++ min_joint_positions ++ min_delta_start_positions in
  mk_Box (map (option_map float32) min_obs) (map (option_map float32) max_obs).

(** [_get_action_space]: [Box(low=np.full((n), -1.0), high=np.full((n), 1.0))];
    -1.0 and 1.0 are binary32 numbers, which [dtype=np.float32] leaves as
    they are. *)
Definition _get_action_space : Box :=
  mk_Box (repeat (Some (-1.0)) action_dim) (repeat (Some 1.0) action_dim).

(** [_set_initial_joint_positions_range] stores the same two arrays at every
    call; they are constants here. *)
Definition initial_joint_positions_low : array :=
  [Num (-0.9); Num (-1.5); Num (-1.5); Num (-3.14); Num 1.3; Num 0.0].

Definition initial_joint_positions_high : array :=
  [Num (-0.7); Num (-1.1); Num (-1.1); Num 3.14; Num 1.7; Num 0.0].

Definition _get_initial_joint_positions : array :=
  [Num (-0.78); Num (-1.31); Num (-1.31); Num (-2.18); Num 1.57; Num 0.0].

Definition _robot_server_state_to_env_state (rs_state : array) : array :=
  (* Convert to numpy array and remove NaN values *)
  let rs_state := nan_to_num rs_state in
  (* Transform cartesian coordinates of target to polar coordinates
     with respect to the end effector frame *)
  let target_coord := slice 0 3 rs_state in
  let ee_to_base_translation := slice 18 21 rs_state in
  let ee_to_base_quaternion := slice 21 25 rs_state in
  let base_to_ee_quaternion := quat_inv ee_to_base_quaternion in
  let base_to_ee_translation := vneg ee_to_base_translation in
  let target_coord_ee_frame :=
    change_reference_frame target_coord base_to_ee_translation
                           base_to_ee_quaternion in
  let target_polar := cartesian_to_polar_3d target_coord_ee_frame in
  (* Transform joint positions from ROS indexing to standard indexing *)
  let ur_j_pos := _ros_joint_list_to_ur5_joint_list (slice 6 12 rs_state) in
  (* Normalize joint position values *)
  let ur_j_pos_norm := normalize_joint_values ur_j_pos in
  (* start joint positions *)
  let start_joints := normalize_joint_values _get_initial_joint_positions in
  let delta_joints := vsub ur_j_pos_norm start_joints in
  (* Compose environment state *)
  target_polar ++ ur_j_pos_norm ++ delta_joints.

(** The local variables of [_reward] that its last line prints as the
    'reward composition', with the distance and the total. *)
Record composition : Type := mk_composition {
  distance_to_target : float;
  dr : float;
  act_r : float;
  dist : float;
  dist_max : float;
  reward : float
}.

(** The arithmetic of [_reward], from [reward = 0] to the [dist_max] block.
    The polar terms [p1_r] and [p2_r] are computed and never used there; they
    are left out. *)
Definition reward_composition (rs_state action : array) : composition :=
  let env_state := _robot_server_state_to_env_state rs_state in
  let reward := Num 0 in
  (* minimum and maximum distance the robot should keep to the obstacle *)
  let minimum_distance := Num 0.3 in
  let maximum_distance := Num 0.6 in
  (* calculate distance to the target *)
  let target_coord := slice 0 3 rs_state in
  let ee_coord := slice 18 21 rs_state in
  let distance_to_target := norm (vsub target_coord ee_coord) in
  let delta_joint_pos := slice 9 15 env_state in
  let dr := Num 0 in
  let '(dr, reward) :=
    if flt (sum (vabs (last_n 6 env_state))) (Num 0.5) then
      let dr :=
        fmul (fmul (Num 1)
                   (fsub (Num 1) (fdiv (sum (vabs delta_joint_pos)) (Num 0.5))))
             (Num (1 / 1000)) in
      (dr, fadd reward dr)
    else (dr, reward) in
  (* reward moving as less as possible *)
  let act_r := Num 0 in
  let '(act_r, reward) :=
    if fle (sum (vabs action)) (size action) then
      let act_r :=
        fmul (fmul (Num 1)
                   (fsub (Num 1) (fdiv (sum (square action)) (size action))))
             (Num (1 / 1000)) in
      (act_r, fadd reward act_r)
    else (act_r, reward) in
  (* punish if the obstacle gets too close *)
  let dist := Num 0 in
  let '(dist, reward) :=
    if flt distance_to_target minimum_distance then
      let dist := fmul (Num (-2)) (Num (1 / IZR max_episode_steps)) in
      (dist, fadd reward dist)
    else (dist, reward) in
  (* punish if the robot moves too far away from the obstacle *)
  let dist_max := Num 0 in
  let dist_max :=
    if fgt distance_to_target maximum_distance then
      fmul (Num (-1)) (Num (1 / IZR max_episode_steps))
    else dist_max in
  mk_composition distance_to_target dr act_r dist dist_max reward.

(** The conditions of the three [if] of [reward_composition] that add a term
    to the reward. *)
Definition dr_gate (rs_state : array) : bool :=
  flt (sum (vabs (last_n 6 (_robot_server_state_to_env_state rs_state))))
      (Num 0.5).

Definition act_r_gate (action : array) : bool :=
  fle (sum (vabs action)) (size action).

Definition dist_gate (rs_state : array) : bool :=
  flt (norm (vsub (slice 0 3 rs_state) (slice 18 21 rs_state))) (Num 0.3).

(** The condition of the fourth, which sets [dist_max]. *)
Definition dist_max_gate (rs_state : array) : bool :=
  fgt (norm (vsub (slice 0 3 rs_state) (slice 18 21 rs_state))) (Num 0.6).

Definition _reward (rs_state action : array) : M (float * bool * info) :=
  let c := reward_composition rs_state action in
  let done := false in
  let info := mk_info None None in
  let target_coord := slice 0 3 rs_state in
  (* Check if robot is in collision *)
  flag <- index rs_state 25 ;;
  let collision := if feq flag (Num 1) then true else false in
  '(done, info) <-
    (if collision then
       modify (set_last_position_on_success []) ;;
       ret (true, mk_info (Some "collision"%string) (Some target_coord))
     else ret (done, info)) ;;
  self <- get ;;
  '(done, info) <-
    (if (elapsed_steps self >=? max_episode_steps)%Z then
       modify (set_last_position_on_success []) ;;
       ret (true, mk_info (Some "success"%string) (Some target_coord))
     else ret (done, info)) ;;
  ret (reward c, done, info).

(** The loop at the end of [reset]: every joint must be within [tolerance] of
    the range of initial joint positions. *)
Fixpoint check_joint_range (joint_positions low high : array) : M unit :=
  match joint_positions, low, high with
  | p :: joint_positions', l :: low', h :: high' =>
      let tolerance := Num 0.1 in
      if flt (fadd p tolerance) l || fgt (fsub p tolerance) h then
        raise (InvalidStateError
                 "Reset joint positions are not within defined range")
      else check_joint_range joint_positions' low' high'
  | _, _, _ => ret tt
  end.

(** The body that [MovingBoxTargetUR5.reset] and
    [MovingBox3DSplineTargetUR5.reset] share; they differ in the parameters of
    the target's motion, [float_params] and [string_params]. *)
Definition reset_with (float_params : list (string * float))
                      (string_params : list (string * string))
                      (client : server)
                      (initial_joint_positions : joints_arg)
                      (type : string) : M array :=
  modify (set_elapsed_steps 0) ;;
  (* Initialize environment state *)
  modify (set_state (zeros _get_env_state_len)) ;;
  let rs_state := zeros _get_robot_server_state_len in
  (* Set initial robot joint positions *)
  given <- truth initial_joint_positions ;;
  self <- get ;;
  ur5_initial_joint_positions <-
    (if given then
       assert (Nat.eqb (length (items initial_joint_positions)) 6) ;;
       ret (items initial_joint_positions)
     else if negb (Nat.eqb (length (last_position_on_success self)) 0)
             && String.eqb type "continue" then
       ret (last_position_on_success self)
     else
       ret _get_initial_joint_positions) ;;
  let rs_state :=
    set_slice 6 12
      (_ur_5_joint_list_to_ros_joint_list ur5_initial_joint_positions)
      rs_state in
  (* Set initial state of the Robot Server *)
  let state_msg := mk_State rs_state float_params string_params in
  modify (send (SetState state_msg)) ;;
  (if negb (accepted client) then raise (RobotServerError "set_state")
   else ret tt) ;;
  (* Get Robot Server state *)
  let rs_state := nan_to_num (telemetry client) in
  modify (set_prev_rs_state rs_state) ;;
  (* Check if the length of the Robot Server state received is correct *)
  (if negb (Nat.eqb (length rs_state) _get_robot_server_state_len) then
     raise (InvalidStateError "Robot Server state received has wrong length")
   else ret tt) ;;
  (* Convert the initial state from Robot Server format to environment format *)
  modify (set_state (_robot_server_state_to_env_state rs_state)) ;;
  (* save start position *)
  modify (fun self => set_start_position (slice 3 9 (state self)) self) ;;
  (* Check if the environment state is contained in the observation space *)
  self <- get ;;
  (if negb (contains _get_observation_space (state self)) then
     raise (InvalidStateError EmptyString)
   else ret tt) ;;
  (* check if current position is in the range of the initial joint positions *)
  (if Nat.eqb (length (last_position_on_success self)) 0
      || String.eqb type "random" then
     let joint_positions :=
       _ros_joint_list_to_ur5_joint_list (slice 6 12 rs_state) in
     check_joint_range joint_positions initial_joint_positions_low
                       initial_joint_positions_high
   else ret tt) ;;
  self <- get ;;
  ret (state self).

(** [MovingBoxTargetUR5.reset]; [z_amplitude] and [z_offset] are the two
    numbers drawn from [np.random.default_rng()]. *)
Definition reset (z_amplitude z_offset : float) : server -> joints_arg -> string -> M array :=
  let z_frequency := Num 0.125 in
  reset_with
    [("x", Num 0.13); ("y", Num (-0.30)); ("z_amplitude", z_amplitude);
     ("z_frequency", z_frequency); ("z_offset", z_offset)]%string
    [("function", "triangle_wave")]%string.

(** [MovingBox3DSplineTargetUR5.reset]. *)
Definition reset_3d_spline : server -> joints_arg -> string -> M array :=
  reset_with
    [("x_min", Num (-0.7)); ("x_max", Num 0.7); ("y_min", Num 0.2);
     ("y_max", Num 1.0); ("z_min", Num 0.1); ("z_max", Num 1.0);
     ("n_points", Num 10); ("n_sampling_points", Num 4000)]%string
    [("function", "3d_spline")]%string.

(** The joint command of [step], in standard joint order: the lines from
    [initial_joint_positions = self._get_initial_joint_positions()] to
    [rs_action = initial_joint_positions]. *)
Definition rs_action (action : array) : array :=
  let initial_joint_positions := _get_initial_joint_positions in
  if Nat.eqb (length action) 3 then
    set_slice 1 4 (vadd (slice 1 4 initial_joint_positions) action)
              initial_joint_positions
  else if Nat.eqb (length action) 5 then
    set_slice 0 5 (vadd (slice 0 5 initial_joint_positions) action)
              initial_joint_positions
  else if Nat.eqb (length action) 6 then
    vadd initial_joint_positions action
  else initial_joint_positions.

Definition step (client : server) (action : array)
  : M (array * float * bool * info) :=
  modify (fun self => set_elapsed_steps (elapsed_steps self + 1) self) ;;
  (* Check if the action is within the action space *)
  assert (contains _get_action_space action) ;;
  (* Convert environment action to Robot Server action *)
  let rs_action := rs_action action in
  (* Convert action indexing from ur5 to ros *)
  let rs_action := _ur_5_joint_list_to_ros_joint_list rs_action in
  (* Send action to Robot Server *)
  modify (send (SendAction rs_action)) ;;
  (if negb (accepted client) then raise (RobotServerError "send_action")
   else ret tt) ;;
  (* Get state from Robot Server *)
  let rs_state := telemetry client in
  modify (set_prev_rs_state rs_state) ;;
  (* Convert the state from Robot Server format to environment format *)
  modify (set_state (_robot_server_state_to_env_state rs_state)) ;;
  (* Check if the environment state is contained in the observation space *)
  self <- get ;;
  (if negb (contains _get_observation_space (state self)) then
     raise (InvalidStateError EmptyString)
   else ret tt) ;;
  (* Assign reward *)
  '(reward, done, info) <- _reward rs_state action ;;
  self <- get ;;
  ret (state self, reward, done, info).

End MovingBoxTargetUR5.

(** ** A reference implementation of the imported methods *)

(** Modelled from the spec: the methods of [robo_gym.utils] and of [UR5Env]
    that [src/] lacks, after sections 3 and 4.3 of the specification: a
    telemetry vector of 26 numbers and an observation of 15; a joint order
    mapping that is a fixed bijection and its own inverse; a normalization of
    each joint by its physical range; the rigid transform of the target into
    the end effector's frame by the inverse rotation and the negated
    translation; a polar form made of a distance and two angles.  The
    specification fixes neither the joint ranges nor the angle convention:
    one turn, 6.28 rad, is taken for every joint, and the two angles are an
    azimuth and an inclination.  The instance serves to run the environments
    on concrete inputs; no theorem over [UR5] depends on these choices. *)
Module Ref.

(** The two orders differ by the exchange of the first and third joints. *)
Definition swap_0_2 (l : array) : array :=
  match l with
  | a :: b :: c :: rest => c :: b :: a :: firstn 3 rest
  | _ => l
  end.

Definition joint_range : R := 6.28.

Definition normalize (l : array) : array :=
  map (fun x => fdiv x (Num joint_range)) l.

(** The inverse of a unit quaternion [x, y, z, w] is its conjugate. *)
Definition conjugate (q : array) : array :=
  match q with
  | [x; y; z; w] => [fneg x; fneg y; fneg z; w]
  | _ => q
  end.

Definition cross (u v : array) : array :=
  match u, v with
  | [u1; u2; u3], [v1; v2; v3] =>
      [fsub (fmul u2 v3) (fmul u3 v2);
       fsub (fmul u3 v1) (fmul u1 v3);
       fsub (fmul u1 v2) (fmul u2 v1)]
  | _, _ => []
  end.

Definition scale (k : float) (v : array) : array := map (fmul k) v.

(** Rotation of [v] by the unit quaternion [q]:
    [v + 2 w (u x v) + 2 u x (u x v)] with [u] the vector part of [q]. *)
Definition rotate (q v : array) : array :=
  match q with
  | [x; y; z; w] =>
      let u := [x; y; z] in
      vadd (vadd v (scale (fmul (Num 2) w) (cross u v)))
           (scale (Num 2) (cross u (cross u v)))
  | _ => v
  end.

(** The point is rotated, then translated. *)
Definition change_frame (point translation quaternion : array) : array :=
  vadd (rotate quaternion point) translation.

(** The angle of the point [(x, y)] of the plane, in the interval from [-PI]
    to [PI]. *)
Definition Ratan2 (y x : R) : R :=
  if Rlt_dec 0 x then atan (y / x)
  else if Rlt_dec x 0 then
    if Rle_dec 0 y then atan (y / x) + PI else atan (y / x) - PI
  else if Rlt_dec 0 y then PI / 2
  else if Rlt_dec y 0 then - (PI / 2)
  else 0.

Definition polar (v : array) : array :=
  match v with
  | [x; y; z] =>
      let r := norm [x; y; z] in
      let theta := lift2 Ratan2 (norm [x; y]) z in
      let phi := lift2 Ratan2 y x in
      [r; theta; phi]
  | _ => [NaN; NaN; NaN]
  end.

#[export] Instance ur5 (dof : nat) : UR5 := {
  _get_robot_server_state_len := 26;
  _get_env_state_len := 15;
  action_dim := dof;
  _ros_joint_list_to_ur5_joint_list := swap_0_2;
  _ur_5_joint_list_to_ros_joint_list := swap_0_2;
  normalize_joint_values := normalize;
  quat_inv := conjugate;
  change_reference_frame := change_frame;
  cartesian_to_polar_3d := polar
}.

End Ref.

(** ** Concrete inputs *)

Module Inputs.

(** An environment object as its constructor leaves it. *)
Definition fresh : env := mk_env 0 [] [] [] [] [].

(** The same after a thousand steps without a reset. *)
Definition at_max_steps : env := mk_env 1000 [] [] [] [] [].

(** A telemetry vector, [target_ee] the target's position, [joints] the joint
    positions in the robot's order, [flag] the collision flag; the end
    effector is at the origin, with the identity orientation. *)
Definition telemetry_of (target : array) (joints : array) (flag : float)
  : array :=
  target ++ zeros 3 ++ joints ++ zeros 6 ++ zeros 3
         ++ [Num 0; Num 0; Num 0; Num 1] ++ [flag].

(** The default joint configuration, in the robot's order. *)
Definition ros_default : array :=
  [Num (-1.31); Num (-1.31); Num (-0.78); Num (-2.18); Num 1.57; Num 0.0].

Definition far_target : array := [Num 0.5; Num 0; Num 0].

Definition resting : array := telemetry_of far_target ros_default (Num 0).

Definition colliding : array := telemetry_of far_target ros_default (Num 1).

(** The target at exactly 0.3 m and at exactly 0.6 m of the end effector. *)
Definition at_minimum_distance : array :=
  telemetry_of [Num 0.3; Num 0; Num 0] ros_default (Num 0).

Definition at_maximum_distance : array :=
  telemetry_of [Num 0.6; Num 0; Num 0] ros_default (Num 0).

Definition beyond_maximum_distance : array :=
  telemetry_of [Num 1; Num 0; Num 0] ros_default (Num 0).

(** A joint configuration inside the range of initial positions that is not
    the default one, in standard order and in the robot's order. *)
Definition shifted_joints : array :=
  [Num (-0.7); Num (-1.31); Num (-1.31); Num (-2.18); Num 1.57; Num 0.0].

Definition ros_shifted_joints : array :=
  [Num (-1.31); Num (-1.31); Num (-0.7); Num (-2.18); Num 1.57; Num 0.0].

Definition shifted : array := telemetry_of far_target ros_shifted_joints (Num 0).

(** A telemetry vector whose first joint position is NaN, and the same with
    zero in its place. *)
Definition with_nan : array :=
  telemetry_of far_target
    [NaN; Num (-1.31); Num (-0.78); Num (-2.18); Num 1.57; Num 0.0] (Num 0).

Definition with_zero : array :=
  telemetry_of far_target
    [Num 0; Num (-1.31); Num (-0.78); Num (-2.18); Num 1.57; Num 0.0] (Num 0).

Definition zero_action : array := zeros 6.

Definition five_joints : array :=
  [Num (-0.78); Num (-1.31); Num (-1.31); Num (-2.18); Num 1.57].

Definition out_of_box : array := [Num 2; Num 0; Num 0; Num 0; Num 0; Num 0].

End Inputs.

(** ** Further concrete inputs *)

Module Cases.

(** A robot server that refuses the command. *)
Definition refusing : server := mk_server false Inputs.resting.

(** The first joint of the robot's order ten radians away. *)
Definition far_joint : array :=
  Inputs.telemetry_of Inputs.far_target
    [Num 10; Num (-1.31); Num (-0.78); Num (-2.18); Num 1.57; Num 0.0] (Num 0).

(** All joints at zero, outside the range of initial positions. *)
Definition zero_joints : array :=
  Inputs.telemetry_of Inputs.far_target (zeros 6) (Num 0).

(** A NaN in the target's position. *)
Definition nan_target : array :=
  Inputs.telemetry_of [NaN; Num 0; Num 0] Inputs.ros_default (Num 0).

(** A telemetry vector cut after twenty entries. *)
Definition truncated : array := firstn 20 Inputs.resting.

(** The resting telemetry with joint velocities that are not zero. *)
Definition moving : array :=
  Inputs.far_target ++ zeros 3 ++ Inputs.ros_default ++ repeat (Num 0.5) 6
    ++ zeros 3 ++ [Num 0; Num 0; Num 0; Num 1] ++ [Num 0].

(** An environment whose [last_position_on_success] holds a configuration. *)
Definition with_cache : env := mk_env 0 [] [] [] (zeros 6) [].

(** An environment one step before [max_episode_steps]. *)
Definition at_999 : env := mk_env 999 [] [] [] [] [].

End Cases.

(** * Properties *)

(** ** Comparisons and arithmetic of floating point values *)

Lemma Rltb_true (x y : R) : x < y -> Rltb x y = true.
Proof. intros H. unfold Rltb. destruct (Rlt_dec x y); [reflexivity | contradiction]. Qed.

Lemma Rltb_false (x y : R) : ~ x < y -> Rltb x y = false.
Proof. intros H. unfold Rltb. destruct (Rlt_dec x y); [contradiction | reflexivity]. Qed.

Lemma Rltb_spec (x y : R) : Rltb x y = true <-> x < y.
Proof.
  unfold Rltb. destruct (Rlt_dec x y); split; intros H; auto; discriminate.
Qed.

Lemma Rleb_true (x y : R) : x <= y -> Rleb x y = true.
Proof. intros H. unfold Rleb. destruct (Rle_dec x y); [reflexivity | contradiction]. Qed.

Lemma Rleb_false (x y : R) : ~ x <= y -> Rleb x y = false.
Proof. intros H. unfold Rleb. destruct (Rle_dec x y); [contradiction | reflexivity]. Qed.

Lemma Rleb_spec (x y : R) : Rleb x y = true <-> x <= y.
Proof.
  unfold Rleb. destruct (Rle_dec x y); split; intros H; auto; discriminate.
Qed.

Lemma Reqb_true (x y : R) : x = y -> Reqb x y = true.
Proof. intros H. unfold Reqb. destruct (Req_dec_T x y); [reflexivity | contradiction]. Qed.

Lemma Reqb_false (x y : R) : x <> y -> Reqb x y = false.
Proof. intros H. unfold Reqb. destruct (Req_dec_T x y); [contradiction | reflexivity]. Qed.

Lemma flt_Num (x y : R) : flt (Num x) (Num y) = true <-> x < y.
Proof. apply Rltb_spec. Qed.

Lemma fle_Num (x y : R) : fle (Num x) (Num y) = true <-> x <= y.
Proof. apply Rleb_spec. Qed.

(** A comparison that holds compares two numbers. *)
Lemma flt_true_inv (a b : float) :
  flt a b = true -> exists x y, a = Num x /\ b = Num y /\ x < y.
Proof.
  destruct a as [|x], b as [|y]; simpl; try discriminate.
  intros H. exists x, y. repeat split. now apply Rltb_spec.
Qed.

Lemma fle_true_inv (a b : float) :
  fle a b = true -> exists x y, a = Num x /\ b = Num y /\ x <= y.
Proof.
  destruct a as [|x], b as [|y]; simpl; try discriminate.
  intros H. exists x, y. repeat split. now apply Rleb_spec.
Qed.

Lemma fdiv_Num (x y : R) : y <> 0 -> fdiv (Num x) (Num y) = Num (x / y).
Proof.
  intros H. unfold fdiv. destruct (Req_dec_T y 0); [contradiction | reflexivity].
Qed.

Lemma fadd_0_l (a : float) : fadd (Num 0) a = a.
Proof. destruct a as [|x]; simpl; [reflexivity | f_equal; lra]. Qed.

Lemma fadd_0_r (a : float) : fadd a (Num 0) = a.
Proof. destruct a as [|x]; simpl; [reflexivity | f_equal; lra]. Qed.

(** The binary32 bounds of the observation space: 1.1 is stored as
    [9227469 * 2^-23], that is 1.10000002384185791015625. *)
Lemma float32_high : float32 (1.0 + 0.1) = 9227469 / 8388608.
Proof.
  unfold float32. rewrite <- (tech_up _ 9227469); [reflexivity | lra | lra].
Qed.

Lemma float32_low : float32 (-1.0 - 0.1) = - (9227469 / 8388608).
Proof.
  unfold float32. rewrite <- (tech_up _ (-9227469)); lra.
Qed.

(** No multiple of [2^-23] is nearer to 1.1. *)
Lemma float32_high_nearest (k : Z) :
  Rabs (9227469 / 8388608 - 1.1) <= Rabs (IZR k / 8388608 - 1.1).
Proof.
  destruct (Z_le_gt_dec k 9227468) as [Hk | Hk].
  - apply IZR_le in Hk.
    rewrite (Rabs_right (9227469 / 8388608 - 1.1)) by lra.
    rewrite (Rabs_left (IZR k / 8388608 - 1.1)) by lra. lra.
  - assert (Hk' : (9227469 <= k)%Z) by lia. apply IZR_le in Hk'.
    rewrite (Rabs_right (9227469 / 8388608 - 1.1)) by lra.
    rewrite (Rabs_right (IZR k / 8388608 - 1.1)) by lra. lra.
Qed.

(** ** Slices *)

Lemma zip_with_length {A B C : Type} (f : A -> B -> C) (l : list A) (m : list B) :
  length (zip_with f l m) = Nat.min (length l) (length m).
Proof.
  revert m. induction l as [|a l IH]; intros [|b m]; simpl; auto.
Qed.

Lemma nan_to_num_length (l : array) : length (nan_to_num l) = length l.
Proof. apply length_map. Qed.

Lemma slice_length {A : Type} (i j : nat) (l : list A) :
  (j <= length l)%nat -> length (slice i j l) = (j - i)%nat.
Proof.
  intros H. unfold slice. rewrite length_firstn, length_skipn. lia.
Qed.

(** On a sequence of fifteen elements, [l[-6:]] and [l[9:15]] select the same
    positions. *)
Lemma last_6_is_slice_9_15 {A : Type} (l : list A) :
  length l = 15%nat -> last_n 6 l = slice 9 15 l.
Proof.
  intros H. unfold last_n, slice. rewrite H. simpl Nat.sub.
  symmetry. apply firstn_all2. rewrite length_skipn. lia.
Qed.

Lemma nan_to_num_idempotent (l : array) : nan_to_num (nan_to_num l) = nan_to_num l.
Proof.
  unfold nan_to_num. rewrite map_map. apply map_ext. intros [|r]; reflexivity.
Qed.

(** ** The observation *)

Section Observation.

Context {U : UR5} {F : UR5Facts U}.

(** The transform replaces NaNs itself: a telemetry vector and the same with
    zeros for its NaNs have the same observation. *)
Lemma env_state_nan_to_num (rs_state : array) :
  _robot_server_state_to_env_state (nan_to_num rs_state)
  = _robot_server_state_to_env_state rs_state.
Proof.
  unfold _robot_server_state_to_env_state.
  now rewrite nan_to_num_idempotent.
Qed.

Lemma ur_j_pos_norm_length (rs_state : array) :
  (12 <= length rs_state)%nat ->
  length (normalize_joint_values
            (_ros_joint_list_to_ur5_joint_list (slice 6 12 (nan_to_num rs_state))))
  = 6%nat.
Proof.
  intros H. rewrite normalize_length. apply ros_to_ur5_length.
  rewrite slice_length; [reflexivity | rewrite nan_to_num_length; lia].
Qed.

Lemma delta_joints_length (rs_state : array) :
  (12 <= length rs_state)%nat ->
  length (vsub
            (normalize_joint_values
               (_ros_joint_list_to_ur5_joint_list (slice 6 12 (nan_to_num rs_state))))
            (normalize_joint_values _get_initial_joint_positions))
  = 6%nat.
Proof.
  intros H. unfold vsub. rewrite zip_with_length, ur_j_pos_norm_length by exact H.
  rewrite normalize_length. reflexivity.
Qed.

Lemma env_state_length (rs_state : array) :
  (12 <= length rs_state)%nat ->
  length (_robot_server_state_to_env_state rs_state) = 15%nat.
Proof.
  intros H. unfold _robot_server_state_to_env_state.
  rewrite !length_app, polar_length, ur_j_pos_norm_length, delta_joints_length
    by exact H.
  reflexivity.
Qed.

(** The last six components are the normalized joint positions minus the
    normalized default configuration. *)
Lemma env_state_last_6 (rs_state : array) :
  (12 <= length rs_state)%nat ->
  last_n 6 (_robot_server_state_to_env_state rs_state)
  = vsub (normalize_joint_values
            (_ros_joint_list_to_ur5_joint_list (slice 6 12 (nan_to_num rs_state))))
         (normalize_joint_values _get_initial_joint_positions).
Proof.
  intros H. unfold last_n. rewrite env_state_length by exact H.
  unfold _robot_server_state_to_env_state.
  rewrite app_assoc. rewrite skipn_app.
  rewrite length_app, polar_length, ur_j_pos_norm_length by exact H.
  simpl Nat.sub. rewrite skipn_all2.
  - reflexivity.
  - rewrite length_app, polar_length, ur_j_pos_norm_length by exact H. simpl. lia.
Qed.

(** Components 3 to 8 are the normalized joint positions. *)
Lemma env_state_slice_3_9 (rs_state : array) :
  (12 <= length rs_state)%nat ->
  slice 3 9 (_robot_server_state_to_env_state rs_state)
  = normalize_joint_values
      (_ros_joint_list_to_ur5_joint_list (slice 6 12 (nan_to_num rs_state))).
Proof.
  intros H. unfold slice at 1. unfold _robot_server_state_to_env_state.
  rewrite skipn_app, polar_length. simpl Nat.sub.
  rewrite skipn_all2 by (rewrite polar_length; lia). simpl app.
  rewrite firstn_app, ur_j_pos_norm_length by exact H. simpl Nat.sub.
  rewrite firstn_O, app_nil_r. apply firstn_all2.
  rewrite ur_j_pos_norm_length by exact H. lia.
Qed.

End Observation.

(** ** The reward composition *)

Section Reward.

Context {U : UR5}.

Ltac split_gates :=
  unfold reward_composition, max_episode_steps; cbv zeta;
  repeat match goal with
         | |- context [if ?c then _ else _] => destruct c
         end;
  cbv beta iota zeta delta [dr act_r dist reward dist_max distance_to_target].

Lemma distance_to_target_eq (rs_state action : array) :
  distance_to_target (reward_composition rs_state action)
  = norm (vsub (slice 0 3 rs_state) (slice 18 21 rs_state)).
Proof. split_gates; reflexivity. Qed.

Lemma dr_eq (rs_state action : array) :
  dr (reward_composition rs_state action)
  = if dr_gate rs_state then
      fmul (fmul (Num 1)
              (fsub (Num 1)
                 (fdiv (sum (vabs (slice 9 15
                                     (_robot_server_state_to_env_state rs_state))))
                       (Num 0.5))))
           (Num (1 / 1000))
    else Num 0.
Proof. unfold dr_gate. split_gates; reflexivity. Qed.

Lemma act_r_eq (rs_state action : array) :
  act_r (reward_composition rs_state action)
  = if act_r_gate action then
      fmul (fmul (Num 1)
              (fsub (Num 1) (fdiv (sum (square action)) (size action))))
           (Num (1 / 1000))
    else Num 0.
Proof. unfold act_r_gate. split_gates; reflexivity. Qed.

Lemma dist_eq (rs_state action : array) :
  dist (reward_composition rs_state action)
  = if dist_gate rs_state then Num (-2 * (1 / 1000)) else Num 0.
Proof. unfold dist_gate. split_gates; simpl; reflexivity. Qed.

Lemma dist_max_eq (rs_state action : array) :
  dist_max (reward_composition rs_state action)
  = if dist_max_gate rs_state then Num (-1 * (1 / 1000)) else Num 0.
Proof. unfold dist_max_gate. split_gates; simpl; reflexivity. Qed.

Lemma reward_eq (rs_state action : array) :
  reward (reward_composition rs_state action)
  = fadd (fadd (dr (reward_composition rs_state action))
               (act_r (reward_composition rs_state action)))
         (dist (reward_composition rs_state action)).
Proof.
  split_gates; rewrite ?fadd_0_l, ?fadd_0_r; reflexivity.
Qed.

End Reward.

(** ** Boxes and sums *)

Lemma all_above_repeat (b : R) (x : array) :
  all (zip_with above (repeat (Some b) (length x)) x) = true ->
  Forall (fun a => exists v, a = Num v /\ b <= v) x.
Proof.
  induction x as [|a x IH]; simpl; intros H.
  - constructor.
  - apply andb_true_iff in H. destruct H as [Ha Hx]. constructor.
    + destruct a as [|v]; simpl in Ha; [discriminate |].
      exists v. split; [reflexivity | now apply Rleb_spec].
    + apply IH. exact Hx.
Qed.

Lemma all_below_repeat (b : R) (x : array) :
  all (zip_with below (repeat (Some b) (length x)) x) = true ->
  Forall (fun a => exists v, a = Num v /\ v <= b) x.
Proof.
  induction x as [|a x IH]; simpl; intros H.
  - constructor.
  - apply andb_true_iff in H. destruct H as [Ha Hx]. constructor.
    + destruct a as [|v]; simpl in Ha; [discriminate |].
      exists v. split; [reflexivity | now apply Rleb_spec].
    + apply IH. exact Hx.
Qed.

(** An action the action space contains has the declared number of
    components, each a number between -1 and 1. *)
Lemma action_space_contains {U : UR5} (action : array) :
  contains _get_action_space action = true ->
  length action = action_dim
  /\ Forall (fun a => exists v, a = Num v /\ -1 <= v <= 1) action.
Proof.
  unfold contains, _get_action_space. simpl low. simpl high.
  rewrite repeat_length. intros H.
  apply andb_true_iff in H. destruct H as [H Hhi].
  apply andb_true_iff in H. destruct H as [Hlen Hlo].
  apply Nat.eqb_eq in Hlen. split; [exact Hlen |].
  rewrite <- Hlen in Hlo, Hhi.
  apply all_above_repeat in Hlo. apply all_below_repeat in Hhi.
  rewrite Forall_forall in *. intros a Ha.
  destruct (Hlo a Ha) as [v [-> Hv]].
  destruct (Hhi _ Ha) as [w [Hw Hw']]. injection Hw as <-.
  exists v. split; [reflexivity | lra].
Qed.

(** The sum of the absolute values of numbers between -1 and 1 is between 0
    and their count; so is the sum of their squares. *)
Lemma sum_vabs_in_box (action : array) :
  Forall (fun a => exists v, a = Num v /\ -1 <= v <= 1) action ->
  exists s, sum (vabs action) = Num s /\ 0 <= s <= INR (length action).
Proof.
  induction 1 as [|a l [v [-> Hv]] _ [s [Hs Hb]]].
  - exists 0. simpl. split; [reflexivity | lra].
  - exists (Rabs v + s). split.
    + change (sum (vabs (Num v :: l)))
        with (fadd (fabs (Num v)) (sum (vabs l))).
      rewrite Hs. reflexivity.
    + rewrite length_cons, S_INR.
      assert (0 <= Rabs v <= 1).
      { split; [apply Rabs_pos | apply Rabs_le; lra]. }
      lra.
Qed.

Lemma sum_square_in_box (action : array) :
  Forall (fun a => exists v, a = Num v /\ -1 <= v <= 1) action ->
  exists q, sum (square action) = Num q /\ 0 <= q <= INR (length action).
Proof.
  induction 1 as [|a l [v [-> Hv]] _ [q [Hq Hb]]].
  - exists 0. simpl. split; [reflexivity | lra].
  - exists (v * v + q). split.
    + change (sum (square (Num v :: l)))
        with (fadd (fsquare (Num v)) (sum (square l))).
      rewrite Hq. reflexivity.
    + rewrite length_cons, S_INR. nra.
Qed.

(** A sum of absolute values that is a number is not negative. *)
Lemma sum_vabs_nonneg (l : array) (s : R) :
  sum (vabs l) = Num s -> 0 <= s.
Proof.
  revert s. induction l as [|a l IH]; intros s H.
  - simpl in H. injection H as <-. lra.
  - change (sum (vabs (a :: l))) with (fadd (fabs a) (sum (vabs l))) in H.
    destruct a as [|v]; [discriminate |].
    destruct (sum (vabs l)) as [|t]; [discriminate |].
    simpl in H. injection H as <-. specialize (IH t eq_refl).
    pose proof (Rabs_pos v). lra.
Qed.

(** ** The reference implementation has the shapes of [UR5Facts] *)

Lemma swap_0_2_length (l : array) :
  length l = 6%nat -> length (Ref.swap_0_2 l) = 6%nat.
Proof.
  destruct l as [|a [|b [|c [|d [|e [|f [|g l]]]]]]]; simpl; intros H;
    try discriminate; reflexivity.
Qed.

Lemma polar_length_3 (v : array) : length (Ref.polar v) = 3%nat.
Proof.
  destruct v as [|x [|y [|z [|w v]]]]; reflexivity.
Qed.

#[export] Instance Ref_facts (dof : nat) : UR5Facts (Ref.ur5 dof).
Proof.
  constructor.
  - exact polar_length_3.
  - exact swap_0_2_length.
  - intros l. apply length_map.
Qed.

(** ** The distance of the concrete telemetry vectors *)

Lemma sqrt_axis (x : R) :
  0 <= x ->
  sqrt ((x - 0) * (x - 0) + ((0 - 0) * (0 - 0) + ((0 - 0) * (0 - 0) + 0))) = x.
Proof.
  intros H. replace ((x - 0) * (x - 0) + ((0 - 0) * (0 - 0) + ((0 - 0) * (0 - 0) + 0)))
    with (x * x) by lra.
  now apply sqrt_square.
Qed.

Lemma distance_on_axis (x : R) (joints : array) (flag : float) (action : array) :
  0 <= x -> length joints = 6%nat ->
  distance_to_target
    (@reward_composition (Ref.ur5 6)
       (Inputs.telemetry_of [Num x; Num 0; Num 0] joints flag) action)
  = Num x.
Proof.
  intros Hx Hj. rewrite distance_to_target_eq.
  destruct joints as [|a [|b [|c [|d [|e [|f [|g l]]]]]]]; try discriminate.
  cbn. f_equal. now apply sqrt_axis.
Qed.

(** ** Claims on the reward *)

Section RewardClaims.

Context {U : UR5}.

(** C6.  For every telemetry vector and action the reward that [_reward]
    returns is [dr + act_r + dist].  The [dist_max] term takes its value
    [-1/1000] when the distance exceeds 0.6 and is in no way part of the sum:
    the reward is then [dr + act_r]. *)
Theorem C6_reward_is_dr_act_r_dist (rs_state action : array) :
  let c := reward_composition rs_state action in
  reward c = fadd (fadd (dr c) (act_r c)) (dist c)
  /\ (forall self : env,
        match _reward rs_state action self with
        | (Ok (r, _, _), _) => r = fadd (fadd (dr c) (act_r c)) (dist c)
        | (Raise _, _) => True
        end)
  /\ (forall d : R,
        distance_to_target c = Num d -> d > 0.6 ->
        dist_max c = Num (-1 / 1000) /\ dist c = Num 0
        /\ reward c = fadd (dr c) (act_r c)).
Proof.
  intros c. split; [apply reward_eq | split].
  - intros self. unfold _reward, bind, index.
    destruct (nth_error rs_state 25) as [flag|]; simpl; [| exact I].
    destruct (feq flag (Num 1)); simpl;
      destruct (elapsed_steps self >=? max_episode_steps)%Z; simpl;
      apply reward_eq.
  - intros d Hd Hgt. subst c.
    rewrite distance_to_target_eq in Hd.
    assert (Hmax : dist_max (reward_composition rs_state action) = Num (-1 / 1000)).
    { rewrite dist_max_eq. unfold dist_max_gate, fgt. rewrite Hd.
      simpl. rewrite Rltb_true by lra. f_equal. lra. }
    assert (Hdist : dist (reward_composition rs_state action) = Num 0).
    { rewrite dist_eq. unfold dist_gate. rewrite Hd.
      simpl. rewrite Rltb_false by lra. reflexivity. }
    repeat split; [exact Hmax | exact Hdist |].
    rewrite reward_eq, Hdist. apply fadd_0_r.
Qed.

(** C5.  With [d] the distance between the target and the end effector of
    the telemetry: [dist] is [-2/max_episode_steps] exactly when [d < 0.3] and
    zero otherwise, and it is part of the reward, which is
    [dr + act_r - 2/max_episode_steps] when [d < 0.3] and [dr + act_r]
    otherwise, in the composition and in what [_reward] returns; [dist_max]
    is set, to [-1/max_episode_steps], exactly when [d > 0.6]; at [d = 0.3]
    and at [d = 0.6] both are zero. *)
Theorem C5_distance_thresholds_are_strict (rs_state action : array) (d : R)
  (Hd : norm (vsub (slice 0 3 rs_state) (slice 18 21 rs_state)) = Num d) :
  let c := reward_composition rs_state action in
  distance_to_target c = Num d
  /\ (dist c = Num (-2 / IZR max_episode_steps) <-> d < 0.3)
  /\ (dist c = Num 0 <-> ~ d < 0.3)
  /\ (dist_max c = Num (-1 / IZR max_episode_steps) <-> d > 0.6)
  /\ (dist_max c = Num 0 <-> ~ d > 0.6)
  /\ (d = 0.3 \/ d = 0.6 -> dist c = Num 0 /\ dist_max c = Num 0)
  /\ (d < 0.3 ->
      reward c
      = fadd (fadd (dr c) (act_r c)) (Num (-2 / IZR max_episode_steps)))
  /\ (~ d < 0.3 -> reward c = fadd (dr c) (act_r c))
  /\ (forall self : env,
        match _reward rs_state action self with
        | (Ok (r, _, _), _) =>
            (d < 0.3 ->
             r = fadd (fadd (dr c) (act_r c))
                      (Num (-2 / IZR max_episode_steps)))
            /\ (~ d < 0.3 -> r = fadd (dr c) (act_r c))
        | (Raise _, _) => True
        end).
Proof.
  intros c. subst c.
  assert (Hclose : d < 0.3 ->
            reward (reward_composition rs_state action)
            = fadd (fadd (dr (reward_composition rs_state action))
                         (act_r (reward_composition rs_state action)))
                   (Num (-2 / IZR max_episode_steps))).
  { intros Hlt. rewrite reward_eq, dist_eq. unfold dist_gate. rewrite Hd.
    simpl flt. rewrite (Rltb_true _ _ Hlt). unfold max_episode_steps.
    do 2 f_equal. lra. }
  assert (Hfar : ~ d < 0.3 ->
            reward (reward_composition rs_state action)
            = fadd (dr (reward_composition rs_state action))
                   (act_r (reward_composition rs_state action))).
  { intros Hge. rewrite reward_eq, dist_eq. unfold dist_gate. rewrite Hd.
    simpl flt. rewrite (Rltb_false _ _ Hge). apply fadd_0_r. }
  assert (Hreturned : forall self : env,
            match _reward rs_state action self with
            | (Ok (r, _, _), _) => r = reward (reward_composition rs_state action)
            | (Raise _, _) => True
            end).
  { intros self. unfold _reward, bind, index.
    destruct (nth_error rs_state 25) as [flag|]; simpl; [| exact I].
    destruct (feq flag (Num 1)); simpl;
      destruct (elapsed_steps self >=? max_episode_steps)%Z; reflexivity. }
  assert (Hgates :
            (dist (reward_composition rs_state action)
             = Num (-2 / IZR max_episode_steps) <-> d < 0.3)
            /\ (dist (reward_composition rs_state action) = Num 0
                <-> ~ d < 0.3)
            /\ (dist_max (reward_composition rs_state action)
                = Num (-1 / IZR max_episode_steps) <-> d > 0.6)
            /\ (dist_max (reward_composition rs_state action) = Num 0
                <-> ~ d > 0.6)
            /\ (d = 0.3 \/ d = 0.6 ->
                dist (reward_composition rs_state action) = Num 0
                /\ dist_max (reward_composition rs_state action) = Num 0)).
  { rewrite dist_eq, dist_max_eq. unfold dist_gate, dist_max_gate, fgt.
    rewrite Hd. unfold max_episode_steps. simpl flt.
    destruct (Rlt_dec d 0.3) as [Hlt | Hlt];
      [rewrite (Rltb_true _ _ Hlt) | rewrite (Rltb_false _ _ Hlt)];
      (destruct (Rlt_dec 0.6 d) as [Hgt | Hgt];
       [rewrite (Rltb_true _ _ Hgt) | rewrite (Rltb_false _ _ Hgt)]);
      repeat split; intros;
        repeat match goal with
               | H : Num _ = Num _ |- _ => injection H as H
               | H : _ \/ _ |- _ => destruct H
               end;
        try reflexivity; try lra; try contradiction; try (f_equal; lra). }
  destruct Hgates as [H1 [H2 [H3 [H4 H5]]]].
  split; [rewrite distance_to_target_eq; exact Hd |].
  split; [exact H1 |]. split; [exact H2 |]. split; [exact H3 |].
  split; [exact H4 |]. split; [exact H5 |].
  split; [exact Hclose | split; [exact Hfar |]].
  intros self. specialize (Hreturned self).
  destruct (_reward rs_state action self) as [[[[r done] i] | x] s];
    [| exact I].
  rewrite Hreturned. split; assumption.
Qed.

End RewardClaims.

Section RewardBounds.

Context {U : UR5} {F : UR5Facts U}.

(** When the gate of [dr] holds, the gated sum is a number [s] with
    [0 <= s < 0.5], the slice [9:15] that [dr] is computed from is the slice
    [-6:] of the gate, and [dr] is [(1 - s / 0.5) / 1000]. *)
Lemma dr_when_gated (rs_state action : array) :
  (12 <= length rs_state)%nat ->
  dr_gate rs_state = true ->
  exists s,
    sum (vabs (last_n 6 (_robot_server_state_to_env_state rs_state))) = Num s
    /\ 0 <= s < 0.5
    /\ dr (reward_composition rs_state action) = Num ((1 - s / 0.5) / 1000).
Proof.
  intros Hlen Hgate. rewrite dr_eq, Hgate.
  unfold dr_gate in Hgate. apply flt_true_inv in Hgate.
  destruct Hgate as [s [y [Hs [Hy Hlt]]]]. injection Hy as <-.
  exists s. split; [exact Hs |]. split.
  - split; [now apply (sum_vabs_nonneg _ _ Hs) | exact Hlt].
  - rewrite <- (last_6_is_slice_9_15 _ (env_state_length _ Hlen)), Hs.
    rewrite fdiv_Num by lra. simpl. f_equal. lra.
Qed.

(** For an action of the action space the gate of [act_r] holds and [act_r]
    is [(1 - q / n) / 1000], with [q] the sum of the squares of the [n]
    components, [0 <= q <= n]. *)
Lemma act_r_in_box (rs_state action : array) :
  action_dim <> 0%nat ->
  contains _get_action_space action = true ->
  act_r_gate action = true
  /\ exists q,
       sum (square action) = Num q /\ 0 <= q <= INR (length action)
       /\ act_r (reward_composition rs_state action)
          = Num ((1 - q / INR (length action)) / 1000).
Proof.
  intros Hdim Hbox. apply action_space_contains in Hbox.
  destruct Hbox as [Hlen Hall].
  destruct (sum_vabs_in_box _ Hall) as [s [Hs Hsb]].
  destruct (sum_square_in_box _ Hall) as [q [Hq Hqb]].
  assert (Hgate : act_r_gate action = true).
  { unfold act_r_gate, size. rewrite Hs. apply fle_Num. lra. }
  split; [exact Hgate |]. exists q. repeat split; try lra; try exact Hq.
  rewrite act_r_eq, Hgate, Hq. unfold size.
  rewrite fdiv_Num by (apply not_0_INR; congruence).
  simpl. f_equal. lra.
Qed.

(** C9.  For a telemetry vector with its joint positions (twelve entries at
    least) and an action of the action space, which has at least one
    component: [dr] and [act_r] are in [[0, 1/1000]], the gate of [act_r]
    holds, [dist] is [0] or [-2/1000], and the reward is in
    [[-2/1000, 2/1000]]. *)
Theorem C9_reward_within_bounds (rs_state action : array)
  (Hlen : (12 <= length rs_state)%nat)
  (Hdim : action_dim <> 0%nat)
  (Hbox : contains _get_action_space action = true) :
  let c := reward_composition rs_state action in
  exists r_dr r_act r_dist r : R,
    dr c = Num r_dr /\ act_r c = Num r_act /\ dist c = Num r_dist
    /\ reward c = Num r
    /\ 0 <= r_dr <= 1 / 1000
    /\ act_r_gate action = true
    /\ 0 <= r_act <= 1 / 1000
    /\ (r_dist = 0 \/ r_dist = -2 / 1000)
    /\ -2 / 1000 <= r <= 2 / 1000.
Proof.
  intros c. subst c.
  destruct (act_r_in_box rs_state action Hdim Hbox)
    as [Hgate [q [Hq [Hqb Hact]]]].
  assert (Hn : 0 < INR (length action)).
  { apply action_space_contains in Hbox. destruct Hbox as [Hl _].
    apply lt_0_INR. lia. }
  assert (Hact_b : 0 <= (1 - q / INR (length action)) / 1000 <= 1 / 1000).
  { assert (Hdiv : 0 <= q / INR (length action) <= 1).
    { split.
      - apply Rmult_le_pos; [lra | left; now apply Rinv_0_lt_compat].
      - apply (Rmult_le_reg_r (INR (length action))); [exact Hn |].
        unfold Rdiv. rewrite Rmult_assoc, Rinv_l by lra. lra. }
    lra. }
  assert (Hdr : exists r_dr,
             dr (reward_composition rs_state action) = Num r_dr
             /\ 0 <= r_dr <= 1 / 1000).
  { destruct (dr_gate rs_state) eqn:Hg.
    - destruct (dr_when_gated rs_state action Hlen Hg) as [s [_ [Hs Hdr]]].
      eexists. split; [exact Hdr | lra].
    - exists 0. rewrite dr_eq, Hg. split; [reflexivity | lra]. }
  destruct Hdr as [r_dr [Hdr Hdr_b]].
  assert (Hdist : exists r_dist,
             dist (reward_composition rs_state action) = Num r_dist
             /\ (r_dist = 0 \/ r_dist = -2 / 1000)).
  { rewrite dist_eq. destruct (dist_gate rs_state).
    - eexists. split; [reflexivity | right; lra].
    - exists 0. split; [reflexivity | now left]. }
  destruct Hdist as [r_dist [Hdist Hdist_b]].
  exists r_dr, ((1 - q / INR (length action)) / 1000), r_dist,
    (r_dr + (1 - q / INR (length action)) / 1000 + r_dist).
  repeat split; try assumption; try lra; try (destruct Hdist_b; lra).
  rewrite reward_eq, Hdr, Hact, Hdist. reflexivity.
Qed.

(** C2, as the code has it.  For a telemetry vector with its joint positions
    the observation has fifteen components, so that its slice [9:15], from
    which [dr] is computed, is its slice [-6:], on which [dr] is gated: one
    and the same slice.  With [s] the sum of the absolute values of that
    slice, [dr] is [(1 - s / 0.5) / 1000] when [s < 0.5], and is zero, adding
    nothing to the reward, when the gate fails. *)
Theorem C2_dr_gate_and_magnitude_on_one_slice (rs_state action : array)
  (Hlen : (12 <= length rs_state)%nat) :
  let env_state := _robot_server_state_to_env_state rs_state in
  let c := reward_composition rs_state action in
  last_n 6 env_state = slice 9 15 env_state
  /\ (dr_gate rs_state = true ->
      exists s, sum (vabs (slice 9 15 env_state)) = Num s
                /\ 0 <= s < 0.5
                /\ dr c = Num ((1 - s / 0.5) / 1000))
  /\ (forall s, sum (vabs (last_n 6 env_state)) = Num s ->
                (dr_gate rs_state = true <-> s < 0.5))
  /\ (dr_gate rs_state = false ->
      dr c = Num 0 /\ reward c = fadd (act_r c) (dist c)).
Proof.
  intros env_state c. subst env_state c.
  assert (Hsame := last_6_is_slice_9_15 _ (env_state_length _ Hlen)).
  split; [exact Hsame | split; [| split]].
  - intros Hg. destruct (dr_when_gated rs_state action Hlen Hg) as [s H].
    rewrite Hsame in H. exists s. exact H.
  - intros s Hs. unfold dr_gate. rewrite Hs. apply flt_Num.
  - intros Hg.
    assert (Hdr : dr (reward_composition rs_state action) = Num 0)
      by (rewrite dr_eq, Hg; reflexivity).
    split; [exact Hdr |]. rewrite reward_eq, Hdr, fadd_0_l. reflexivity.
Qed.

End RewardBounds.

(** ** Claims on [_reward], [step] and [reset] as methods *)

Section Methods.

Context {U : UR5}.

(** Below [max_episode_steps] a collision ends the episode with the status
    'collision' and empties [last_position_on_success]. *)
Lemma collision_below_max_steps (rs_state action : array) (self : env) :
  nth_error rs_state 25 = Some (Num 1) ->
  (elapsed_steps self < max_episode_steps)%Z ->
  _reward rs_state action self
  = (Ok (reward (reward_composition rs_state action), true,
         mk_info (Some "collision"%string) (Some (slice 0 3 rs_state))),
     set_last_position_on_success [] self).
Proof.
  intros Hflag Hsteps. unfold _reward, bind, index. rewrite Hflag. simpl.
  rewrite Reqb_true by reflexivity. simpl.
  rewrite Z.geb_leb, (proj2 (Z.leb_gt _ _) Hsteps). reflexivity.
Qed.

(** C1, what the code does.  When the collision flag is 1 and
    [elapsed_steps >= max_episode_steps], [_reward] returns [done = True] and
    empties [last_position_on_success], and the status it returns is
    'success': the second [if] overwrites the 'collision' of the first. *)
Theorem C1_collision_at_max_steps_is_reported_as_success
  (rs_state action : array) (self : env)
  (Hflag : nth_error rs_state 25 = Some (Num 1))
  (Hsteps : (max_episode_steps <= elapsed_steps self)%Z) :
  _reward rs_state action self
  = (Ok (reward (reward_composition rs_state action), true,
         mk_info (Some "success"%string) (Some (slice 0 3 rs_state))),
     set_last_position_on_success [] self).
Proof.
  unfold _reward, bind, index. rewrite Hflag. simpl.
  rewrite Reqb_true by reflexivity. simpl.
  rewrite Z.geb_leb, (proj2 (Z.leb_le _ _) Hsteps). reflexivity.
Qed.

(** C10.  [step] with an action that the action space does not contain raises
    the assertion error after [elapsed_steps] has been incremented: the
    counter of the object is one more than before, nothing else has changed,
    and no command has been sent. *)
Theorem C10_rejected_action_still_counts_a_step
  (client : server) (action : array) (self : env)
  (Hout : contains _get_action_space action = false) :
  step client action self
  = (Raise AssertionError, set_elapsed_steps (elapsed_steps self + 1) self)
  /\ elapsed_steps (snd (step client action self)) = (elapsed_steps self + 1)%Z
  /\ snd (step client action self) <> self
  /\ sent (snd (step client action self)) = sent self.
Proof.
  assert (Hrun : step client action self
                 = (Raise AssertionError,
                    set_elapsed_steps (elapsed_steps self + 1) self)).
  { unfold step, bind, modify, assert. rewrite Hout. reflexivity. }
  rewrite Hrun. simpl. repeat split.
  intros Heq. apply (f_equal elapsed_steps) in Heq. simpl in Heq. lia.
Qed.

(** Once [step] has sent its action, nothing more is sent. *)
Lemma step_sends_rs_action (client : server) (action : array) (self : env) :
  contains _get_action_space action = true ->
  sent (snd (step client action self))
  = SendAction (_ur_5_joint_list_to_ros_joint_list (rs_action action))
      :: sent self.
Proof.
  intros Hin. unfold step, bind, modify, assert. rewrite Hin. simpl.
  destruct (accepted client); simpl; [| reflexivity].
  destruct (contains _get_observation_space _); simpl; [| reflexivity].
  unfold _reward, bind, index.
  destruct (nth_error (telemetry client) 25) as [flag|]; simpl; [| reflexivity].
  destruct (feq flag (Num 1)); simpl;
    destruct (_ >=? max_episode_steps)%Z; reflexivity.
Qed.

(** C4.  The command that [step] sends for an action of the action space is
    the joint order mapping of [rs_action action], and [rs_action action] is
    the default configuration with the action added at indices 1 to 3 when it
    has three components, at indices 0 to 4 when it has five, at all indices
    when it has six; for the action of six zeros it is the default
    configuration itself. *)
Theorem C4_commanded_joint_configuration
  (client : server) (action : array) (self : env)
  (Hin : contains _get_action_space action = true) :
  sent (snd (step client action self))
  = SendAction (_ur_5_joint_list_to_ros_joint_list (rs_action action))
      :: sent self
  /\ (forall a1 a2 a3,
        action = [a1; a2; a3] ->
        rs_action action
        = [Num (-0.78); fadd (Num (-1.31)) a1; fadd (Num (-1.31)) a2;
           fadd (Num (-2.18)) a3; Num 1.57; Num 0.0])
  /\ (forall a0 a1 a2 a3 a4,
        action = [a0; a1; a2; a3; a4] ->
        rs_action action
        = [fadd (Num (-0.78)) a0; fadd (Num (-1.31)) a1;
           fadd (Num (-1.31)) a2; fadd (Num (-2.18)) a3;
           fadd (Num 1.57) a4; Num 0.0])
  /\ (forall a0 a1 a2 a3 a4 a5,
        action = [a0; a1; a2; a3; a4; a5] ->
        rs_action action
        = [fadd (Num (-0.78)) a0; fadd (Num (-1.31)) a1;
           fadd (Num (-1.31)) a2; fadd (Num (-2.18)) a3;
           fadd (Num 1.57) a4; fadd (Num 0.0) a5])
  /\ (action = zeros 6 -> rs_action action = _get_initial_joint_positions).
Proof.
  split; [now apply step_sends_rs_action |].
  repeat split; intros; subst action; try reflexivity.
  unfold rs_action, _get_initial_joint_positions, zeros, vadd, fadd. simpl.
  rewrite !Rplus_0_r. reflexivity.
Qed.

(** C7, as the code has it.  [reset], of either class, called with a list
    that is not empty and has not six elements raises the assertion error;
    [elapsed_steps] and [state] have been reinitialized and no command has
    been sent to the robot server. *)
Theorem C7_nonempty_list_of_wrong_length_is_rejected
  (z_amplitude z_offset : float) (client : server) (l : array)
  (type : string) (self : env)
  (Hnonempty : l <> [])
  (Hlength : length l <> 6%nat) :
  let self' := set_state (zeros _get_env_state_len) (set_elapsed_steps 0 self) in
  reset z_amplitude z_offset client (PyList l) type self
  = (Raise AssertionError, self')
  /\ reset_3d_spline client (PyList l) type self = (Raise AssertionError, self')
  /\ sent self' = sent self.
Proof.
  intros self'. subst self'.
  assert (Hrun : forall fp sp,
             reset_with fp sp client (PyList l) type self
             = (Raise AssertionError,
                set_state (zeros _get_env_state_len) (set_elapsed_steps 0 self))).
  { intros fp sp. unfold reset_with, bind, modify, truth.
    destruct l as [|a l]; [contradiction |]. simpl items.
    apply Nat.eqb_neq in Hlength. unfold assert, ret, get.
    cbv beta iota delta [items]. rewrite Hlength. reflexivity. }
  repeat split; apply Hrun.
Qed.

End Methods.

Section Telemetry.

Context {U : UR5} {F : UR5Facts U}.

(** [step] on an accepted action whose observation is in the observation
    space: the attributes written before [_reward] runs, and the result. *)
Lemma step_run (client : server) (action : array) (self : env) :
  contains _get_action_space action = true ->
  accepted client = true ->
  contains _get_observation_space
           (_robot_server_state_to_env_state (telemetry client)) = true ->
  step client action self
  = match
      _reward (telemetry client) action
        (set_state (_robot_server_state_to_env_state (telemetry client))
           (set_prev_rs_state (telemetry client)
              (send (SendAction
                       (_ur_5_joint_list_to_ros_joint_list (rs_action action)))
                 (set_elapsed_steps (elapsed_steps self + 1) self))))
    with
    | (Ok (reward, done, info), self') =>
        (Ok (state self', reward, done, info), self')
    | (Raise x, self') => (Raise x, self')
    end.
Proof.
  intros Hin Hacc Hobs. unfold step, bind, modify, assert.
  rewrite Hin, Hacc. simpl. rewrite Hobs. simpl.
  destruct (_reward _ _ _) as [[[[r d] i] | x] s]; reflexivity.
Qed.

(** [_reward] leaves [state] and [prev_rs_state] as they are. *)
Lemma _reward_keeps_state (rs_state action : array) (self : env) :
  state (snd (_reward rs_state action self)) = state self
  /\ prev_rs_state (snd (_reward rs_state action self)) = prev_rs_state self.
Proof.
  unfold _reward, bind, index.
  destruct (nth_error rs_state 25) as [flag|]; simpl; [| now split].
  destruct (feq flag (Num 1)); simpl;
    destruct (_ >=? max_episode_steps)%Z; simpl; now split.
Qed.

(** What [step] stores and returns once its action is accepted. *)
Lemma step_stores_observation (client : server) (action : array) (self : env) :
  contains _get_action_space action = true ->
  accepted client = true ->
  prev_rs_state (snd (step client action self)) = telemetry client
  /\ state (snd (step client action self))
     = _robot_server_state_to_env_state (telemetry client)
  /\ match fst (step client action self) with
     | Ok (observation, r, _, _) =>
         observation = _robot_server_state_to_env_state (telemetry client)
         /\ r = reward (reward_composition (telemetry client) action)
     | Raise _ => True
     end.
Proof.
  intros Hin Hacc.
  unfold step, bind, modify, assert. rewrite Hin, Hacc. simpl.
  destruct (contains _get_observation_space _); simpl; [| now repeat split].
  unfold _reward, bind, index.
  destruct (nth_error (telemetry client) 25) as [flag|]; simpl;
    [| now repeat split].
  destruct (feq flag (Num 1)); simpl;
    destruct (_ >=? max_episode_steps)%Z; simpl; now repeat split.
Qed.

(** C8, as the code has it.  [step] itself substitutes nothing: it stores the
    telemetry as received in [prev_rs_state] and hands it as received to
    [_reward], whose distance is the norm of the raw coordinates.  But the
    observation is made by the transform, which begins by replacing NaNs with
    zeros: the [state] that [step] stores and returns is the observation of
    the telemetry with zeros for its NaNs. *)
Theorem C8_step_observation_has_nans_replaced
  (client : server) (action : array) (self : env)
  (Hin : contains _get_action_space action = true)
  (Hacc : accepted client = true) :
  let rs_state := telemetry client in
  let self' := snd (step client action self) in
  prev_rs_state self' = rs_state
  /\ state self' = _robot_server_state_to_env_state (nan_to_num rs_state)
  /\ match fst (step client action self) with
     | Ok (observation, r, _, _) =>
         observation = _robot_server_state_to_env_state (nan_to_num rs_state)
         /\ r = reward (reward_composition rs_state action)
     | Raise _ => True
     end
  /\ distance_to_target (reward_composition rs_state action)
     = norm (vsub (slice 0 3 rs_state) (slice 18 21 rs_state)).
Proof.
  intros rs_state self'. subst rs_state self'.
  rewrite env_state_nan_to_num, distance_to_target_eq.
  destruct (step_stores_observation client action self Hin Hacc)
    as [Hprev [Hstate Hres]].
  repeat split; assumption.
Qed.

(** C3, as the code has it.  The last six components of the observation are
    the normalized joint positions, its components 3 to 8, minus the
    normalized default configuration: the transform reads nothing of the
    episode.  In particular the observation that [step] stores has this form
    whatever [start_position] the last [reset] has recorded. *)
Theorem C3_delta_is_relative_to_the_default_configuration
  (rs_state : array) (Hlen : (12 <= length rs_state)%nat) :
  let env_state := _robot_server_state_to_env_state rs_state in
  slice 3 9 env_state
  = normalize_joint_values
      (_ros_joint_list_to_ur5_joint_list (slice 6 12 (nan_to_num rs_state)))
  /\ last_n 6 env_state
     = vsub (slice 3 9 env_state)
            (normalize_joint_values _get_initial_joint_positions)
  /\ (forall (client : server) (action : array) (self : env),
        telemetry client = rs_state ->
        accepted client = true ->
        contains _get_action_space action = true ->
        last_n 6 (state (snd (step client action self)))
        = vsub (slice 3 9 (state (snd (step client action self))))
               (normalize_joint_values _get_initial_joint_positions)).
Proof.
  intros env_state. subst env_state.
  assert (Hlast : last_n 6 (_robot_server_state_to_env_state rs_state)
                  = vsub (slice 3 9 (_robot_server_state_to_env_state rs_state))
                      (normalize_joint_values _get_initial_joint_positions)).
  { rewrite env_state_slice_3_9 by exact Hlen. now apply env_state_last_6. }
  split; [now apply env_state_slice_3_9 | split; [exact Hlast |]].
  intros client action self Htel Hacc Hin.
  destruct (step_stores_observation client action self Hin Hacc)
    as [_ [Hstate _]].
  rewrite Hstate, Htel. exact Hlast.
Qed.

End Telemetry.

(** ** Running the environments on the reference implementation *)

(** [reset] when nothing fails: the observation it returns and the attributes
    it leaves. *)
Lemma reset_with_run {U : UR5} (float_params : list (string * float))
  (string_params : list (string * string)) (client : server)
  (initial_joint_positions : joints_arg) (type : string) (self : env)
  (given : bool) :
  let rs_state := nan_to_num (telemetry client) in
  let observation := _robot_server_state_to_env_state rs_state in
  let ur5_initial_joint_positions :=
    if given then items initial_joint_positions
    else if negb (Nat.eqb (length (last_position_on_success self)) 0)
            && String.eqb type "continue"
         then last_position_on_success self
         else _get_initial_joint_positions in
  let state_msg :=
    mk_State
      (set_slice 6 12
         (_ur_5_joint_list_to_ros_joint_list ur5_initial_joint_positions)
         (zeros _get_robot_server_state_len))
      float_params string_params in
  truth initial_joint_positions = ret given ->
  (given = true -> length (items initial_joint_positions) = 6%nat) ->
  accepted client = true ->
  length (telemetry client) = _get_robot_server_state_len ->
  contains _get_observation_space observation = true ->
  (forall e,
     check_joint_range
       (_ros_joint_list_to_ur5_joint_list (slice 6 12 rs_state))
       initial_joint_positions_low initial_joint_positions_high e
     = (Ok tt, e)) ->
  reset_with float_params string_params client initial_joint_positions type self
  = (Ok observation,
     mk_env 0 observation rs_state (slice 3 9 observation)
            (last_position_on_success self) (SetState state_msg :: sent self)).
Proof.
  intros rs_state observation joints state_msg Htruth Hsix Hacc Hlen Hobs Hrange.
  subst state_msg joints.
  assert (Hlen' : Nat.eqb (length rs_state) _get_robot_server_state_len = true).
  { apply Nat.eqb_eq. unfold rs_state. rewrite nan_to_num_length. exact Hlen. }
  unfold reset_with, bind. rewrite Htruth.
  fold rs_state. fold observation. rewrite Hacc, Hlen'.
  cbv beta iota zeta
      delta [modify get ret raise assert negb state set_state
             set_start_position set_prev_rs_state set_elapsed_steps send
             last_position_on_success].
  rewrite Hobs. cbv beta iota delta [negb].
  destruct given.
  - rewrite (Hsix eq_refl). cbv beta iota delta [Nat.eqb].
    destruct (_ || _); [rewrite Hrange |]; reflexivity.
  - cbv beta iota.
    repeat match goal with
           | |- context [if ?c then _ else _] => destruct c
           end;
      rewrite ?Hrange; reflexivity.
Qed.

(** Decides the comparisons of literals that a run meets. *)
Ltac compare_reals :=
  repeat first
    [ rewrite Rleb_true by lra | rewrite Rleb_false by lra
    | rewrite Rltb_true by lra | rewrite Rltb_false by lra
    | rewrite Reqb_true by lra | rewrite Reqb_false by lra ].

(** The reference transform on a telemetry vector of numbers. *)
Lemma Ref_polar_nums (x y z : R) :
  exists p1 p2 p3, Ref.polar [Num x; Num y; Num z] = [Num p1; Num p2; Num p3].
Proof. do 3 eexists. reflexivity. Qed.

Lemma Ref_env_state (dof : nat) (tx ty tz j0 j1 j2 j3 j4 j5 : R) (flag : float) :
  exists p1 p2 p3,
  @_robot_server_state_to_env_state (Ref.ur5 dof)
    (Inputs.telemetry_of [Num tx; Num ty; Num tz]
       [Num j0; Num j1; Num j2; Num j3; Num j4; Num j5] flag)
  = [Num p1; Num p2; Num p3;
     Num (j2 / 6.28); Num (j1 / 6.28); Num (j0 / 6.28);
     Num (j3 / 6.28); Num (j4 / 6.28); Num (j5 / 6.28);
     Num (j2 / 6.28 - -0.78 / 6.28); Num (j1 / 6.28 - -1.31 / 6.28);
     Num (j0 / 6.28 - -1.31 / 6.28); Num (j3 / 6.28 - -2.18 / 6.28);
     Num (j4 / 6.28 - 1.57 / 6.28); Num (j5 / 6.28 - 0.0 / 6.28)].
Proof.
  unfold _robot_server_state_to_env_state.
  cbn -[Ref.polar fdiv].
  rewrite !fdiv_Num by (unfold Ref.joint_range; lra).
  match goal with |- context [Ref.polar [Num ?x; Num ?y; Num ?z]] =>
    destruct (Ref_polar_nums x y z) as [p1 [p2 [p3 ->]]] end.
  exists p1, p2, p3. reflexivity.
Qed.

(** Fifteen numbers, the last twelve within [-1.1, 1.1], are an observation of
    the observation space. *)
Lemma contains_observation (p1 p2 p3 n0 n1 n2 n3 n4 n5 d0 d1 d2 d3 d4 d5 : R) :
  Forall (fun v => -1.1 <= v <= 1.1) [n0; n1; n2; n3; n4; n5; d0; d1; d2; d3; d4; d5] ->
  contains _get_observation_space
    [Num p1; Num p2; Num p3; Num n0; Num n1; Num n2; Num n3; Num n4; Num n5;
     Num d0; Num d1; Num d2; Num d3; Num d4; Num d5] = true.
Proof.
  intros H.
  repeat match goal with
         | H : Forall _ (_ :: _) |- _ => inversion H; clear H; subst
         end.
  unfold contains. cbn -[Rleb float32]. rewrite ?float32_low, ?float32_high.
  compare_reals. reflexivity.
Qed.

Lemma contains_zero_action : @contains (@_get_action_space (Ref.ur5 6)) Inputs.zero_action = true.
Proof. unfold contains. cbn -[Rleb]. compare_reals. reflexivity. Qed.

Lemma shifted_joints_in_range (e : env) :
  check_joint_range Inputs.shifted_joints initial_joint_positions_low initial_joint_positions_high e = (Ok tt, e).
Proof. cbn -[Rltb]. compare_reals. reflexivity. Qed.


Lemma Ref_observation_in_space (dof : nat) (tx ty tz j0 j1 j2 j3 j4 j5 : R)
  (flag : float) :
  Forall (fun j => -3.14 <= j <= 3.14) [j0; j1; j2; j3; j4; j5] ->
  contains _get_observation_space
    (@_robot_server_state_to_env_state (Ref.ur5 dof)
       (Inputs.telemetry_of [Num tx; Num ty; Num tz]
          [Num j0; Num j1; Num j2; Num j3; Num j4; Num j5] flag))
  = true.
Proof.
  intros H.
  repeat match goal with
         | H : Forall _ (_ :: _) |- _ => inversion H; clear H; subst
         end.
  destruct (Ref_env_state dof tx ty tz j0 j1 j2 j3 j4 j5 flag)
    as [p1 [p2 [p3 ->]]].
  apply contains_observation. repeat constructor; lra.
Qed.

Lemma default_joints_in_range (e : env) :
  check_joint_range _get_initial_joint_positions initial_joint_positions_low
                    initial_joint_positions_high e
  = (Ok tt, e).
Proof. cbn -[Rltb]. compare_reals. reflexivity. Qed.

(** Without a collision and below [max_episode_steps] the episode goes on and
    the attributes are left as they are. *)
Lemma no_collision_below_max_steps {U : UR5} (rs_state action : array)
  (self : env) (flag : R) :
  nth_error rs_state 25 = Some (Num flag) ->
  flag <> 1 ->
  (elapsed_steps self < max_episode_steps)%Z ->
  _reward rs_state action self
  = (Ok (reward (reward_composition rs_state action), false, mk_info None None),
     self).
Proof.
  intros Hflag Hne Hsteps. unfold _reward, bind, index. rewrite Hflag. simpl.
  rewrite Reqb_false by exact Hne. simpl.
  rewrite Z.geb_leb, (proj2 (Z.leb_gt _ _) Hsteps). reflexivity.
Qed.

(** ** Counterexamples *)

(** C2.  On the observation of a concrete telemetry vector the slice [-6:] of
    the gate and the slice [9:15] of the magnitude are not different: they are
    the same six components. *)
Lemma C2_gate_slice_is_the_magnitude_slice :
  length (@_robot_server_state_to_env_state (Ref.ur5 6) Inputs.shifted) = 15%nat
  /\ ~ (last_n 6 (@_robot_server_state_to_env_state (Ref.ur5 6) Inputs.shifted)
        <> slice 9 15 (@_robot_server_state_to_env_state (Ref.ur5 6) Inputs.shifted)).
Proof.
  assert (Hlen : (12 <= length Inputs.shifted)%nat) by (cbn; lia).
  split; [now apply env_state_length |].
  intros Hdiff. apply Hdiff, last_6_is_slice_9_15. now apply env_state_length.
Qed.

(** C3.  [reset] with the explicit configuration [shifted_joints], which the
    robot reaches, records it, normalized, as [start_position]; for the very
    telemetry of that reset the last six components of the observation are
    not the normalized joint positions minus that start position, which would
    be zero. *)
Lemma C3_delta_is_not_relative_to_the_start_position :
  exists (observation : array) (self' : env),
    @reset (Ref.ur5 6) (Num 0.2) (Num 0.4) (mk_server true Inputs.shifted)
           (PyList Inputs.shifted_joints) "random" Inputs.fresh
    = (Ok observation, self')
    /\ observation = @_robot_server_state_to_env_state (Ref.ur5 6) Inputs.shifted
    /\ start_position self' = slice 3 9 observation
    /\ last_n 6 observation
       <> vsub (slice 3 9 observation) (start_position self').
Proof.
  assert (Hrun := @reset_with_run (Ref.ur5 6)
            [("x", Num 0.13); ("y", Num (-0.30)); ("z_amplitude", Num 0.2);
             ("z_frequency", Num 0.125); ("z_offset", Num 0.4)]%string
            [("function", "triangle_wave")]%string
            (mk_server true Inputs.shifted) (PyList Inputs.shifted_joints)
            "random" Inputs.fresh true).
  cbv zeta in Hrun.
  change (nan_to_num (telemetry (mk_server true Inputs.shifted)))
    with Inputs.shifted in Hrun.
  specialize (Hrun eq_refl (fun _ => eq_refl) eq_refl eq_refl).
  specialize (Hrun (Ref_observation_in_space 6 0.5 0 0 (-1.31) (-1.31) (-0.7)
                      (-2.18) 1.57 0.0 (Num 0)
                      ltac:(repeat constructor; lra))).
  specialize (Hrun shifted_joints_in_range).
  eexists. eexists. split; [exact Hrun |].
  split; [reflexivity |]. split; [reflexivity |].
  simpl start_position.
  destruct (Ref_env_state 6 0.5 0 0 (-1.31) (-1.31) (-0.7) (-2.18) 1.57 0.0 (Num 0))
    as [p1 [p2 [p3 Hobs]]].
  change (@_robot_server_state_to_env_state (Ref.ur5 6) Inputs.shifted
          = [Num p1; Num p2; Num p3; Num (-0.7 / 6.28); Num (-1.31 / 6.28);
             Num (-1.31 / 6.28); Num (-2.18 / 6.28); Num (1.57 / 6.28);
             Num (0.0 / 6.28); Num (-0.7 / 6.28 - -0.78 / 6.28);
             Num (-1.31 / 6.28 - -1.31 / 6.28); Num (-1.31 / 6.28 - -1.31 / 6.28);
             Num (-2.18 / 6.28 - -2.18 / 6.28); Num (1.57 / 6.28 - 1.57 / 6.28);
             Num (0.0 / 6.28 - 0.0 / 6.28)]) in Hobs.
  rewrite Hobs. cbn. intros Heq. injection Heq. intros. lra.
Qed.

(** C7.  The empty list has not six elements and [reset] does not reject it:
    the argument counts as not given, the command is sent with the default
    configuration, and [reset] returns an observation. *)
Lemma C7_empty_list_is_not_rejected :
  length (@nil float) <> 6%nat
  /\ exists (observation : array) (self' : env),
       @reset (Ref.ur5 6) (Num 0.2) (Num 0.4) (mk_server true Inputs.resting)
              (PyList []) "random" Inputs.fresh
       = (Ok observation, self')
       /\ exists m, sent self' = [SetState m]
                    /\ slice 6 12 (msg_state m) = Inputs.ros_default.
Proof.
  split; [discriminate |].
  assert (Hrun := @reset_with_run (Ref.ur5 6)
            [("x", Num 0.13); ("y", Num (-0.30)); ("z_amplitude", Num 0.2);
             ("z_frequency", Num 0.125); ("z_offset", Num 0.4)]%string
            [("function", "triangle_wave")]%string
            (mk_server true Inputs.resting) (PyList [])
            "random" Inputs.fresh false).
  cbv zeta in Hrun.
  change (nan_to_num (telemetry (mk_server true Inputs.resting)))
    with Inputs.resting in Hrun.
  specialize (Hrun eq_refl ltac:(discriminate) eq_refl eq_refl).
  specialize (Hrun (Ref_observation_in_space 6 0.5 0 0 (-1.31) (-1.31) (-0.78)
                      (-2.18) 1.57 0.0 (Num 0)
                      ltac:(repeat constructor; lra))).
  specialize (Hrun default_joints_in_range).
  eexists. eexists. split; [exact Hrun |].
  eexists. split; reflexivity.
Qed.

(** C8.  A step whose telemetry has a NaN for its first joint position
    succeeds; the observation it returns is the observation of the telemetry
    with a zero in that place, its component for that joint is zero, and no
    component of it is NaN. *)
Lemma C8_nan_joint_position_is_observed_as_zero :
  is_nan (nth 6 Inputs.with_nan (Num 0)) = true
  /\ exists (observation : array) (r : float) (self' : env),
       @step (Ref.ur5 6) (mk_server true Inputs.with_nan) Inputs.zero_action
             Inputs.fresh
       = (Ok (observation, r, false, mk_info None None), self')
       /\ observation
          = @_robot_server_state_to_env_state (Ref.ur5 6) Inputs.with_zero
       /\ nth 5 observation NaN = Num (0 / 6.28)
       /\ forallb (fun a => negb (is_nan a)) observation = true.
Proof.
  split; [reflexivity |].
  assert (Hzero : @_robot_server_state_to_env_state (Ref.ur5 6) Inputs.with_nan
                  = @_robot_server_state_to_env_state (Ref.ur5 6) Inputs.with_zero).
  { rewrite <- (@env_state_nan_to_num (Ref.ur5 6) Inputs.with_nan). reflexivity. }
  assert (Hspace := Ref_observation_in_space 6 0.5 0 0 0 (-1.31) (-0.78)
                      (-2.18) 1.57 0.0 (Num 0)
                      ltac:(repeat constructor; lra)).
  change (contains _get_observation_space
            (@_robot_server_state_to_env_state (Ref.ur5 6) Inputs.with_zero) = true)
    in Hspace.
  assert (Hrun := @step_run (Ref.ur5 6) (mk_server true Inputs.with_nan)
                    Inputs.zero_action Inputs.fresh contains_zero_action eq_refl).
  simpl telemetry in Hrun. rewrite Hzero in Hrun. specialize (Hrun Hspace).
  rewrite (no_collision_below_max_steps _ _ _ 0) in Hrun;
    [| reflexivity | lra | simpl; unfold max_episode_steps; lia].
  eexists. eexists. eexists. split; [exact Hrun |].
  split; [reflexivity |]. simpl state.
  destruct (Ref_env_state 6 0.5 0 0 0 (-1.31) (-0.78) (-2.18) 1.57 0.0 (Num 0))
    as [p1 [p2 [p3 Hobs]]].
  change (@_robot_server_state_to_env_state (Ref.ur5 6) Inputs.with_zero
          = [Num p1; Num p2; Num p3; Num (-0.78 / 6.28); Num (-1.31 / 6.28);
             Num (0 / 6.28); Num (-2.18 / 6.28); Num (1.57 / 6.28);
             Num (0.0 / 6.28); Num (-0.78 / 6.28 - -0.78 / 6.28);
             Num (-1.31 / 6.28 - -1.31 / 6.28); Num (0 / 6.28 - -1.31 / 6.28);
             Num (-2.18 / 6.28 - -2.18 / 6.28); Num (1.57 / 6.28 - 1.57 / 6.28);
             Num (0.0 / 6.28 - 0.0 / 6.28)]) in Hobs.
  rewrite Hobs. split; reflexivity.
Qed.

(** ** The theorems at concrete inputs *)

Lemma contains_out_of_box :
  contains (@_get_action_space (Ref.ur5 6)) Inputs.out_of_box = false.
Proof. unfold contains. cbn -[Rleb]. compare_reals. reflexivity. Qed.

Lemma C1_collision_at_max_steps_witness :
  nth_error Inputs.colliding 25 = Some (Num 1)
  /\ (max_episode_steps <= elapsed_steps Inputs.at_max_steps)%Z
  /\ @_reward (Ref.ur5 6) Inputs.colliding Inputs.zero_action Inputs.at_max_steps
     = (Ok (reward (@reward_composition (Ref.ur5 6) Inputs.colliding
                                        Inputs.zero_action),
            true,
            mk_info (Some "success"%string) (Some Inputs.far_target)),
        set_last_position_on_success [] Inputs.at_max_steps).
Proof.
  assert (Hsteps : (max_episode_steps <= elapsed_steps Inputs.at_max_steps)%Z)
    by (unfold max_episode_steps; simpl; lia).
  split; [reflexivity | split; [exact Hsteps |]].
  exact (@C1_collision_at_max_steps_is_reported_as_success (Ref.ur5 6)
           Inputs.colliding Inputs.zero_action Inputs.at_max_steps
           eq_refl Hsteps).
Defined.

Lemma C2_dr_on_one_slice_witness :
  (12 <= length Inputs.shifted)%nat
  /\ last_n 6 (@_robot_server_state_to_env_state (Ref.ur5 6) Inputs.shifted)
     = slice 9 15 (@_robot_server_state_to_env_state (Ref.ur5 6) Inputs.shifted).
Proof.
  assert (Hlen : (12 <= length Inputs.shifted)%nat) by (simpl; lia).
  split; [exact Hlen |].
  exact (proj1 (@C2_dr_gate_and_magnitude_on_one_slice (Ref.ur5 6) (Ref_facts 6)
                  Inputs.shifted Inputs.zero_action Hlen)).
Defined.

Lemma C3_delta_relative_to_default_witness :
  (12 <= length Inputs.shifted)%nat
  /\ last_n 6 (@_robot_server_state_to_env_state (Ref.ur5 6) Inputs.shifted)
     = vsub (slice 3 9 (@_robot_server_state_to_env_state (Ref.ur5 6)
                          Inputs.shifted))
            (Ref.normalize _get_initial_joint_positions).
Proof.
  assert (Hlen : (12 <= length Inputs.shifted)%nat) by (simpl; lia).
  split; [exact Hlen |].
  exact (proj1 (proj2 (@C3_delta_is_relative_to_the_default_configuration
                         (Ref.ur5 6) (Ref_facts 6) Inputs.shifted Hlen))).
Defined.

Lemma C4_zero_action_witness :
  contains (@_get_action_space (Ref.ur5 6)) Inputs.zero_action = true
  /\ sent (snd (@step (Ref.ur5 6) (mk_server true Inputs.resting)
                      Inputs.zero_action Inputs.fresh))
     = [SendAction (Ref.swap_0_2 (rs_action Inputs.zero_action))]
  /\ rs_action Inputs.zero_action = _get_initial_joint_positions.
Proof.
  split; [exact contains_zero_action |].
  destruct (@C4_commanded_joint_configuration (Ref.ur5 6)
              (mk_server true Inputs.resting) Inputs.zero_action Inputs.fresh
              contains_zero_action) as [Hsent [_ [_ [_ Hzero]]]].
  split; [exact Hsent | exact (Hzero eq_refl)].
Defined.

Lemma C5_minimum_distance_witness :
  norm (vsub (slice 0 3 Inputs.at_minimum_distance)
             (slice 18 21 Inputs.at_minimum_distance)) = Num 0.3
  /\ distance_to_target (@reward_composition (Ref.ur5 6)
                           Inputs.at_minimum_distance Inputs.zero_action)
     = Num 0.3
  /\ dist (@reward_composition (Ref.ur5 6) Inputs.at_minimum_distance
                               Inputs.zero_action) = Num 0
  /\ dist_max (@reward_composition (Ref.ur5 6) Inputs.at_minimum_distance
                                   Inputs.zero_action) = Num 0
  /\ reward (@reward_composition (Ref.ur5 6) Inputs.at_minimum_distance
                                 Inputs.zero_action)
     = fadd (dr (@reward_composition (Ref.ur5 6) Inputs.at_minimum_distance
                                     Inputs.zero_action))
            (act_r (@reward_composition (Ref.ur5 6) Inputs.at_minimum_distance
                                        Inputs.zero_action)).
Proof.
  assert (Hd : norm (vsub (slice 0 3 Inputs.at_minimum_distance)
                          (slice 18 21 Inputs.at_minimum_distance)) = Num 0.3).
  { rewrite <- (@distance_to_target_eq (Ref.ur5 6) Inputs.at_minimum_distance
                  Inputs.zero_action).
    apply distance_on_axis; [lra | reflexivity]. }
  split; [exact Hd |].
  destruct (@C5_distance_thresholds_are_strict (Ref.ur5 6)
              Inputs.at_minimum_distance Inputs.zero_action 0.3 Hd)
    as [Hdist [_ [_ [_ [_ [Hboundary [_ [Hfar _]]]]]]]].
  split; [exact Hdist |].
  destruct (Hboundary (or_introl eq_refl)) as [H0 H1].
  split; [exact H0 | split; [exact H1 |]].
  apply Hfar. lra.
Defined.

Lemma C7_five_joints_witness :
  Inputs.five_joints <> []
  /\ length Inputs.five_joints <> 6%nat
  /\ @reset (Ref.ur5 6) (Num 0.2) (Num 0.4) (mk_server true Inputs.resting)
            (PyList Inputs.five_joints) "random" Inputs.fresh
     = (Raise AssertionError, mk_env 0 (zeros 15) [] [] [] []).
Proof.
  assert (Hne : Inputs.five_joints <> []) by discriminate.
  assert (Hlen : length Inputs.five_joints <> 6%nat) by discriminate.
  split; [exact Hne | split; [exact Hlen |]].
  exact (proj1 (@C7_nonempty_list_of_wrong_length_is_rejected (Ref.ur5 6)
                  (Num 0.2) (Num 0.4) (mk_server true Inputs.resting)
                  Inputs.five_joints "random" Inputs.fresh Hne Hlen)).
Defined.

Lemma C8_nan_telemetry_witness :
  contains (@_get_action_space (Ref.ur5 6)) Inputs.zero_action = true
  /\ prev_rs_state (snd (@step (Ref.ur5 6) (mk_server true Inputs.with_nan)
                               Inputs.zero_action Inputs.fresh))
     = Inputs.with_nan
  /\ state (snd (@step (Ref.ur5 6) (mk_server true Inputs.with_nan)
                       Inputs.zero_action Inputs.fresh))
     = @_robot_server_state_to_env_state (Ref.ur5 6) Inputs.with_zero.
Proof.
  split; [exact contains_zero_action |].
  destruct (@C8_step_observation_has_nans_replaced (Ref.ur5 6)
              (mk_server true Inputs.with_nan) Inputs.zero_action Inputs.fresh
              contains_zero_action eq_refl) as [Hprev [Hstate _]].
  split; [exact Hprev | exact Hstate].
Defined.

Lemma C9_reward_bounds_witness :
  (12 <= length Inputs.resting)%nat
  /\ @action_dim (Ref.ur5 6) <> 0%nat
  /\ contains (@_get_action_space (Ref.ur5 6)) Inputs.zero_action = true
  /\ exists r : R,
       reward (@reward_composition (Ref.ur5 6) Inputs.resting Inputs.zero_action)
       = Num r
       /\ -2 / 1000 <= r <= 2 / 1000.
Proof.
  assert (Hlen : (12 <= length Inputs.resting)%nat) by (simpl; lia).
  assert (Hdim : @action_dim (Ref.ur5 6) <> 0%nat) by discriminate.
  split; [exact Hlen | split; [exact Hdim | split; [exact contains_zero_action |]]].
  destruct (@C9_reward_within_bounds (Ref.ur5 6) (Ref_facts 6) Inputs.resting
              Inputs.zero_action Hlen Hdim contains_zero_action)
    as [r_dr [r_act [r_dist [r [_ [_ [_ [Hr [_ [_ [_ [_ Hb]]]]]]]]]]]].
  exists r. split; [exact Hr | exact Hb].
Defined.

Lemma C10_out_of_box_witness :
  contains (@_get_action_space (Ref.ur5 6)) Inputs.out_of_box = false
  /\ @step (Ref.ur5 6) (mk_server true Inputs.resting) Inputs.out_of_box
           Inputs.fresh
     = (Raise AssertionError, mk_env 1 [] [] [] [] []).
Proof.
  split; [exact contains_out_of_box |].
  exact (proj1 (@C10_rejected_action_still_counts_a_step (Ref.ur5 6)
                  (mk_server true Inputs.resting) Inputs.out_of_box
                  Inputs.fresh contains_out_of_box)).
Defined.

(** Beyond the maximum distance [dist_max] is computed and the reward is
    [dr + act_r]. *)
Lemma dist_max_is_computed_and_unused :
  dist_max (@reward_composition (Ref.ur5 6) Inputs.beyond_maximum_distance
                                Inputs.zero_action) = Num (-1 / 1000)
  /\ reward (@reward_composition (Ref.ur5 6) Inputs.beyond_maximum_distance
                                 Inputs.zero_action)
     = fadd (dr (@reward_composition (Ref.ur5 6) Inputs.beyond_maximum_distance
                                     Inputs.zero_action))
            (act_r (@reward_composition (Ref.ur5 6)
                                        Inputs.beyond_maximum_distance
                                        Inputs.zero_action)).
Proof.
  assert (Hd : distance_to_target
                 (@reward_composition (Ref.ur5 6) Inputs.beyond_maximum_distance
                                      Inputs.zero_action) = Num 1).
  { apply distance_on_axis; [lra | reflexivity]. }
  assert (Hmax : dist_max_gate Inputs.beyond_maximum_distance = true).
  { rewrite distance_to_target_eq in Hd. unfold dist_max_gate, fgt.
    rewrite Hd. apply flt_Num. lra. }
  assert (Hmin : dist_gate Inputs.beyond_maximum_distance = false).
  { rewrite distance_to_target_eq in Hd. unfold dist_gate.
    rewrite Hd. simpl. apply Rltb_false. lra. }
  split.
  - rewrite dist_max_eq, Hmax. f_equal. lra.
  - rewrite reward_eq, dist_eq, Hmin. apply fadd_0_r.
Qed.

(** * Further properties of the methods *)

(** ** Membership of the two spaces *)

Lemma above_Some (b : R) (a : float) :
  above (Some b) a = true <-> exists v, a = Num v /\ b <= v.
Proof.
  destruct a as [|v]; simpl.
  - split; [discriminate | intros [v [H _]]; discriminate].
  - rewrite Rleb_spec. split.
    + intros H. exists v. now split.
    + intros [w [Hw H]]. injection Hw as ->. exact H.
Qed.

Lemma below_Some (b : R) (a : float) :
  below (Some b) a = true <-> exists v, a = Num v /\ v <= b.
Proof.
  destruct a as [|v]; simpl.
  - split; [discriminate | intros [v [H _]]; discriminate].
  - rewrite Rleb_spec. split.
    + intros H. exists v. now split.
    + intros [w [Hw H]]. injection Hw as ->. exact H.
Qed.

Lemma all_above_repeat_inv (b : R) (x : array) :
  Forall (fun a => exists v, a = Num v /\ b <= v) x ->
  all (zip_with above (repeat (Some b) (length x)) x) = true.
Proof.
  induction 1 as [|a x Ha _ IH]; simpl; [reflexivity |].
  apply andb_true_iff. split; [now apply above_Some | exact IH].
Qed.

Lemma all_below_repeat_inv (b : R) (x : array) :
  Forall (fun a => exists v, a = Num v /\ v <= b) x ->
  all (zip_with below (repeat (Some b) (length x)) x) = true.
Proof.
  induction 1 as [|a x Ha _ IH]; simpl; [reflexivity |].
  apply andb_true_iff. split; [now apply below_Some | exact IH].
Qed.

(** The action space contains exactly the arrays of [action_dim] numbers
    between -1 and 1. *)
Lemma action_space_contains_iff {U : UR5} (action : array) :
  contains _get_action_space action = true
  <-> length action = action_dim
      /\ Forall (fun a => exists v, a = Num v /\ -1 <= v <= 1) action.
Proof.
  split; [apply action_space_contains |].
  intros [Hlen Hall]. unfold contains, _get_action_space. simpl low. simpl high.
  rewrite repeat_length, <- Hlen, Nat.eqb_refl. simpl.
  apply andb_true_iff. split.
  - apply all_above_repeat_inv. eapply Forall_impl; [| exact Hall].
    intros a [v [-> Hv]]. exists v. split; [reflexivity | lra].
  - apply all_below_repeat_inv. eapply Forall_impl; [| exact Hall].
    intros a [v [-> Hv]]. exists v. split; [reflexivity | lra].
Qed.

(** What the observation space contains is fifteen numbers, the last twelve
    of them between the binary32 bounds of the box, [-9227469 * 2^-23] and
    [9227469 * 2^-23]. *)
Lemma observation_space_contains (x : array) :
  contains _get_observation_space x = true ->
  exists p1 p2 p3 n0 n1 n2 n3 n4 n5 d0 d1 d2 d3 d4 d5 : R,
    x = [Num p1; Num p2; Num p3; Num n0; Num n1; Num n2; Num n3; Num n4;
         Num n5; Num d0; Num d1; Num d2; Num d3; Num d4; Num d5]
    /\ Forall (fun v => - (9227469 / 8388608) <= v <= 9227469 / 8388608)
              [n0; n1; n2; n3; n4; n5; d0; d1; d2; d3; d4; d5].
Proof.
  unfold contains. intros H.
  apply andb_true_iff in H. destruct H as [H Hhi].
  apply andb_true_iff in H. destruct H as [Hlen Hlo].
  apply Nat.eqb_eq in Hlen. simpl in Hlen.
  do 15 (destruct x as [|? x]; [discriminate |]).
  destruct x; [| discriminate]. clear Hlen.
  unfold _get_observation_space in Hlo, Hhi. simpl low in Hlo. simpl high in Hhi.
  cbn [repeat app map option_map zip_with all forallb] in Hlo, Hhi.
  rewrite ?float32_low in Hlo. rewrite ?float32_high in Hhi.
  repeat match goal with
         | H : _ && _ = true |- _ =>
             apply andb_true_iff in H; destruct H
         end.
  repeat match goal with
         | H : above (Some _) _ = true |- _ =>
             apply above_Some in H; destruct H as [? [-> ?]]
         | H : above None ?a = true |- _ =>
             destruct a; [discriminate H | clear H]
         end.
  repeat match goal with
         | H : below (Some _) (Num _) = true |- _ =>
             apply Rleb_spec in H
         | H : below None _ = true |- _ => clear H
         end.
  do 15 eexists. split; [reflexivity |].
  repeat (apply Forall_cons; [lra |]). apply Forall_nil.
Qed.

(** ** The paths of [step] *)

Section StepPaths.

Context {U : UR5}.

(** [_reward] writes nothing but [last_position_on_success], which it leaves
    or empties. *)
Lemma _reward_frame (rs_state action : array) (self : env) :
  snd (_reward rs_state action self) = self
  \/ snd (_reward rs_state action self) = set_last_position_on_success [] self.
Proof.
  unfold _reward, bind, index.
  destruct (nth_error rs_state 25) as [flag|]; simpl; [| now left].
  destruct (feq flag (Num 1)); simpl;
    destruct (_ >=? max_episode_steps)%Z; simpl; auto.
Qed.

(** What [_reward] returns, by the collision flag and the step count. *)
Lemma _reward_spec (rs_state action : array) (self : env) (flag : float) :
  nth_error rs_state 25 = Some flag ->
  _reward rs_state action self
  = (Ok (reward (reward_composition rs_state action),
         feq flag (Num 1) || (elapsed_steps self >=? max_episode_steps)%Z,
         if (elapsed_steps self >=? max_episode_steps)%Z then
           mk_info (Some "success"%string) (Some (slice 0 3 rs_state))
         else if feq flag (Num 1) then
           mk_info (Some "collision"%string) (Some (slice 0 3 rs_state))
         else mk_info None None),
     if feq flag (Num 1) || (elapsed_steps self >=? max_episode_steps)%Z
     then set_last_position_on_success [] self else self).
Proof.
  intros Hflag. unfold _reward, bind, index. rewrite Hflag. simpl.
  destruct (feq flag (Num 1)); simpl;
    destruct (elapsed_steps self >=? max_episode_steps)%Z; reflexivity.
Qed.

(** A [step] that returns has passed the three checks and returns what
    [_reward] returns. *)
Lemma step_returns_inv (client : server) (action : array) (self self' : env)
  (observation : array) (r : float) (done : bool) (i : info) :
  step client action self = (Ok (observation, r, done, i), self') ->
  contains _get_action_space action = true
  /\ accepted client = true
  /\ contains _get_observation_space
       (_robot_server_state_to_env_state (telemetry client)) = true
  /\ _reward (telemetry client) action
       (set_state (_robot_server_state_to_env_state (telemetry client))
          (set_prev_rs_state (telemetry client)
             (send (SendAction
                      (_ur_5_joint_list_to_ros_joint_list (rs_action action)))
                (set_elapsed_steps (elapsed_steps self + 1) self))))
     = (Ok (r, done, i), self')
  /\ observation = state self'.
Proof.
  unfold step, bind, modify, assert.
  destruct (contains _get_action_space action) eqn:Hin; simpl; [| discriminate].
  destruct (accepted client) eqn:Hacc; simpl; [| discriminate].
  destruct (contains _get_observation_space _) eqn:Hobs; simpl;
    [| discriminate].
  destruct (_reward _ _ _) as [[[[r' d'] i'] | x] s]; simpl; [| discriminate].
  intros H. injection H as <- <- <- <- <-. now repeat split.
Qed.

(** X1.  On every path of [step], the returning one and the raising ones,
    [elapsed_steps] is one more than before and [start_position] is left as
    it was; [last_position_on_success] is left as it was or emptied. *)
Theorem X1_step_counts_on_every_path
  (client : server) (action : array) (self : env) :
  elapsed_steps (snd (step client action self)) = (elapsed_steps self + 1)%Z
  /\ start_position (snd (step client action self)) = start_position self
  /\ (last_position_on_success (snd (step client action self))
      = last_position_on_success self
      \/ last_position_on_success (snd (step client action self)) = []).
Proof.
  unfold step, bind, modify, assert.
  destruct (contains _get_action_space action); simpl; [| auto].
  destruct (accepted client); simpl; [| auto].
  destruct (contains _get_observation_space _); simpl; [| auto].
  match goal with
  | |- context [_reward ?r ?a ?e] =>
      destruct (_reward_frame r a e) as [Hs | Hs];
      destruct (_reward r a e) as [[[[rw d] i] | x] s];
      simpl in Hs; subst s; simpl; auto
  end.
Qed.

(** X2.  [step] raises the assertion error exactly for the actions that are
    not [action_dim] numbers between -1 and 1; an action with a NaN is one of
    them. *)
Theorem X2_step_asserts_exactly_outside_the_box
  (client : server) (action : array) (self : env) :
  fst (step client action self) = Raise AssertionError
  <-> ~ (length action = action_dim
         /\ Forall (fun a => exists v, a = Num v /\ -1 <= v <= 1) action).
Proof.
  rewrite <- action_space_contains_iff.
  destruct (contains _get_action_space action) eqn:Hin.
  - split; [| intros H; now contradiction H].
    intros Hraise. exfalso. revert Hraise.
    unfold step, bind, modify, assert. rewrite Hin. simpl.
    destruct (accepted client); simpl; [| discriminate].
    destruct (contains _get_observation_space _); simpl; [| discriminate].
    unfold _reward, bind, index.
    destruct (nth_error (telemetry client) 25) as [flag|]; simpl;
      [| discriminate].
    destruct (feq flag (Num 1)); simpl;
      destruct (_ >=? max_episode_steps)%Z; simpl; discriminate.
  - split; [intros _; discriminate |]. intros _.
    unfold step, bind, modify, assert. rewrite Hin. reflexivity.
Qed.

(** X3.  When the robot server refuses the action, [step] raises
    [RobotServerError("send_action")]: the step is counted and the command is
    in the log, while [state] and [prev_rs_state] are those of before. *)
Theorem X3_step_when_the_server_refuses
  (client : server) (action : array) (self : env)
  (Hin : contains _get_action_space action = true)
  (Hrefused : accepted client = false) :
  step client action self
  = (Raise (RobotServerError "send_action"),
     mk_env (elapsed_steps self + 1) (state self) (prev_rs_state self)
            (start_position self) (last_position_on_success self)
            (SendAction (_ur_5_joint_list_to_ros_joint_list (rs_action action))
               :: sent self)).
Proof.
  unfold step, bind, modify, assert. rewrite Hin, Hrefused. reflexivity.
Qed.

(** X4.  When the observation of the telemetry is outside the observation
    space, [step] raises [InvalidStateError] after it has overwritten
    [prev_rs_state] and [state] with the telemetry and its observation; the
    reward is not computed and [last_position_on_success] is kept. *)
Theorem X4_step_when_the_observation_is_outside
  (client : server) (action : array) (self : env)
  (Hin : contains _get_action_space action = true)
  (Hacc : accepted client = true)
  (Hout : contains _get_observation_space
            (_robot_server_state_to_env_state (telemetry client)) = false) :
  step client action self
  = (Raise (InvalidStateError EmptyString),
     mk_env (elapsed_steps self + 1)
            (_robot_server_state_to_env_state (telemetry client))
            (telemetry client)
            (start_position self) (last_position_on_success self)
            (SendAction (_ur_5_joint_list_to_ros_joint_list (rs_action action))
               :: sent self)).
Proof.
  unfold step, bind, modify, assert. rewrite Hin, Hacc. simpl.
  rewrite Hout. reflexivity.
Qed.

(** X5.  Whatever [step] returns, the observation it returns is the [state]
    it has stored and is in the observation space: fifteen numbers, none of
    them NaN, the last twelve between the binary32 bounds of the box,
    [-9227469 * 2^-23] and [9227469 * 2^-23] (1.1 as the box stores it, a
    little above 1.1).  The action was in the action space, the server has
    accepted it, and exactly one command was sent. *)
Theorem X5_step_returns_an_observation_of_the_space
  (client : server) (action : array) (self self' : env)
  (observation : array) (r : float) (done : bool) (i : info)
  (Hreturn : step client action self = (Ok (observation, r, done, i), self')) :
  observation = state self'
  /\ observation = _robot_server_state_to_env_state (telemetry client)
  /\ contains _get_observation_space observation = true
  /\ (exists p1 p2 p3 n0 n1 n2 n3 n4 n5 d0 d1 d2 d3 d4 d5 : R,
        observation
        = [Num p1; Num p2; Num p3; Num n0; Num n1; Num n2; Num n3; Num n4;
           Num n5; Num d0; Num d1; Num d2; Num d3; Num d4; Num d5]
        /\ Forall (fun v => - (9227469 / 8388608) <= v <= 9227469 / 8388608)
                  [n0; n1; n2; n3; n4; n5; d0; d1; d2; d3; d4; d5])
  /\ contains _get_action_space action = true
  /\ accepted client = true
  /\ sent self'
     = SendAction (_ur_5_joint_list_to_ros_joint_list (rs_action action))
         :: sent self.
Proof.
  destruct (step_returns_inv _ _ _ _ _ _ _ _ Hreturn)
    as [Hin [Hacc [Hobs [Hreward Hstate]]]].
  destruct (_reward_frame (telemetry client) action
              (set_state (_robot_server_state_to_env_state (telemetry client))
                 (set_prev_rs_state (telemetry client)
                    (send (SendAction
                             (_ur_5_joint_list_to_ros_joint_list
                                (rs_action action)))
                       (set_elapsed_steps (elapsed_steps self + 1) self)))))
    as [Hs | Hs]; rewrite Hreward in Hs; simpl in Hs; subst self' observation;
    simpl; (repeat split; try reflexivity; try assumption;
            now apply observation_space_contains).
Qed.

(** X6.  How a step that returns ends the episode: [done] holds exactly when
    the collision flag is 1 or the step is the thousandth or a later one; a
    step that reaches [max_episode_steps] returns the status 'success', an
    earlier one that is done returns 'collision', and a step that is not done
    returns an empty [info] and keeps [last_position_on_success]. *)
Theorem X6_step_termination
  (client : server) (action : array) (self self' : env)
  (observation : array) (r : float) (done : bool) (i : info)
  (Hreturn : step client action self = (Ok (observation, r, done, i), self')) :
  exists flag : float,
    nth_error (telemetry client) 25 = Some flag
    /\ done = feq flag (Num 1)
              || (elapsed_steps self + 1 >=? max_episode_steps)%Z
    /\ ((max_episode_steps <= elapsed_steps self + 1)%Z ->
        done = true /\ final_status i = Some "success"%string
        /\ last_position_on_success self' = [])
    /\ ((elapsed_steps self + 1 < max_episode_steps)%Z -> done = true ->
        feq flag (Num 1) = true /\ final_status i = Some "collision"%string
        /\ last_position_on_success self' = [])
    /\ (done = false ->
        i = mk_info None None
        /\ last_position_on_success self' = last_position_on_success self).
Proof.
  destruct (step_returns_inv _ _ _ _ _ _ _ _ Hreturn)
    as [_ [_ [_ [Hreward _]]]].
  destruct (nth_error (telemetry client) 25) as [flag|] eqn:Hflag.
  - exists flag. split; [reflexivity |].
    rewrite (_reward_spec _ _ _ _ Hflag) in Hreward. simpl in Hreward.
    injection Hreward as _ <- <- <-.
    destruct (feq flag (Num 1));
      destruct (elapsed_steps self + 1 >=? max_episode_steps)%Z eqn:Hge;
      rewrite Z.geb_leb in Hge;
      (apply Z.leb_le in Hge || apply Z.leb_gt in Hge); simpl;
      repeat split; intros; try reflexivity; try discriminate; try lia.
  - unfold _reward, bind, index in Hreward. rewrite Hflag in Hreward.
    discriminate.
Qed.

End StepPaths.

(** ** The paths of [reset] *)

(** The range check reads the joints and writes nothing. *)
Lemma check_joint_range_frame (joint_positions low high : array) (e : env) :
  snd (check_joint_range joint_positions low high e) = e.
Proof.
  revert low high. induction joint_positions as [|p l IH]; intros low high.
  - reflexivity.
  - destruct low as [|lo low]; [reflexivity |].
    destruct high as [|hi high]; [reflexivity |].
    simpl. destruct (_ || _); [reflexivity | apply IH].
Qed.

(** The range check on six numbers: it passes exactly when every joint is
    within the bounds of [_set_initial_joint_positions_range] widened by the
    tolerance. *)
Lemma check_joint_range_six (p0 p1 p2 p3 p4 p5 : R) (e : env) :
  let window :=
    -0.9 - 0.1 <= p0 <= -0.7 + 0.1 /\ -1.5 - 0.1 <= p1 <= -1.1 + 0.1
    /\ -1.5 - 0.1 <= p2 <= -1.1 + 0.1 /\ -3.14 - 0.1 <= p3 <= 3.14 + 0.1
    /\ 1.3 - 0.1 <= p4 <= 1.7 + 0.1 /\ 0.0 - 0.1 <= p5 <= 0.0 + 0.1 in
  (window ->
   check_joint_range [Num p0; Num p1; Num p2; Num p3; Num p4; Num p5]
     initial_joint_positions_low initial_joint_positions_high e
   = (Ok tt, e))
  /\ (~ window ->
      check_joint_range [Num p0; Num p1; Num p2; Num p3; Num p4; Num p5]
        initial_joint_positions_low initial_joint_positions_high e
      = (Raise (InvalidStateError
                  "Reset joint positions are not within defined range"), e)).
Proof.
  intros window. subst window. split.
  - intros H. cbn -[Rltb]. compare_reals. reflexivity.
  - intros H. cbn -[Rltb].
    repeat match goal with
           | |- context [Rltb ?a ?b] =>
               destruct (Rlt_dec a b);
               [rewrite (Rltb_true a b) by assumption; try reflexivity
               | rewrite (Rltb_false a b) by assumption]
           end;
      simpl; try reflexivity.
    exfalso. apply H. lra.
Qed.

Lemma truth_cases (x : joints_arg) (e : env) :
  (exists given, truth x e = (Ok given, e)) \/ truth x e = (Raise ValueError, e).
Proof.
  destruct x as [|[|a l]|[|a [|b l]]]; simpl;
    try (left; eexists; reflexivity); right; reflexivity.
Qed.

Section ResetPaths.

Context {U : UR5}.

(** X7.  On every path of [reset], of either class, [elapsed_steps] is zero
    afterwards, [last_position_on_success] is the one of before, and at most
    one command, a [set_state], has been sent. *)
Theorem X7_reset_on_every_path
  (z_amplitude z_offset : float) (client : server)
  (initial_joint_positions : joints_arg) (type : string) (self : env) :
  let after :=
    snd (reset z_amplitude z_offset client initial_joint_positions type self) in
  let after' :=
    snd (reset_3d_spline client initial_joint_positions type self) in
  (elapsed_steps after = 0%Z
   /\ last_position_on_success after = last_position_on_success self
   /\ (sent after = sent self \/ exists m, sent after = SetState m :: sent self))
  /\ (elapsed_steps after' = 0%Z
      /\ last_position_on_success after' = last_position_on_success self
      /\ (sent after' = sent self
          \/ exists m, sent after' = SetState m :: sent self)).
Proof.
  assert (Hgen : forall fp sp,
             let self' := snd (reset_with fp sp client initial_joint_positions
                                          type self) in
             elapsed_steps self' = 0%Z
             /\ last_position_on_success self' = last_position_on_success self
             /\ (sent self' = sent self
                 \/ exists m, sent self' = SetState m :: sent self)).
  { intros fp sp. unfold reset_with, bind, modify, assert, get, ret, raise.
    cbv beta iota zeta.
    destruct (truth_cases initial_joint_positions
                (set_state (zeros _get_env_state_len) (set_elapsed_steps 0 self)))
      as [[given ->] | ->]; [| simpl; auto].
    destruct given; cbv beta iota.
    - destruct (_ =? 6)%nat; cbv beta iota; [| simpl; auto].
      destruct (negb (accepted client)); cbv beta iota; [simpl; eauto |].
      destruct (negb (_ =? _)%nat); cbv beta iota; [simpl; eauto |].
      destruct (negb (contains _ _)); cbv beta iota; [simpl; eauto |].
      destruct (_ || _); cbv beta iota; [| simpl; eauto].
      match goal with
      | |- context [check_joint_range ?j ?l ?h ?e] =>
          pose proof (check_joint_range_frame j l h e) as Hf;
          destruct (check_joint_range j l h e) as [[[]| x] s];
          simpl in Hf; subst s; simpl; eauto
      end.
    - destruct (negb _ && _); cbv beta iota;
      (destruct (negb (accepted client)); cbv beta iota; [simpl; eauto |];
       destruct (negb (_ =? _)%nat); cbv beta iota; [simpl; eauto |];
       destruct (negb (contains _ _)); cbv beta iota; [simpl; eauto |];
       destruct (_ || _); cbv beta iota; [| simpl; eauto];
       match goal with
       | |- context [check_joint_range ?j ?l ?h ?e] =>
           pose proof (check_joint_range_frame j l h e) as Hf;
           destruct (check_joint_range j l h e) as [[[]| x] s];
           simpl in Hf; subst s; simpl; eauto
       end). }
  intros after after'. split; apply Hgen.
Qed.

End ResetPaths.

Section ResetErrors.

Context {U : UR5}.

Variables (fparams : list (string * float))
          (sparams : list (string * string))
          (client : server) (initial_joint_positions : joints_arg)
          (type : string) (self : env) (given : bool).

(** The configuration that [reset] sends: the explicit one, else the last
    successful one in 'continue' mode, else the default one. *)
Let ur5_initial_joint_positions : array :=
  if given then items initial_joint_positions
  else if negb (Nat.eqb (length (last_position_on_success self)) 0)
          && String.eqb type "continue"
       then last_position_on_success self
       else _get_initial_joint_positions.

Let state_msg : State :=
  mk_State
    (set_slice 6 12
       (_ur_5_joint_list_to_ros_joint_list ur5_initial_joint_positions)
       (zeros _get_robot_server_state_len))
    fparams sparams.

Let rs_state : array := nan_to_num (telemetry client).

Let observation : array := _robot_server_state_to_env_state rs_state.

Hypothesis Htruth : truth initial_joint_positions = ret given.
Hypothesis Hsix : given = true -> length (items initial_joint_positions) = 6%nat.

Ltac reduce :=
  cbn [modify get ret raise assert negb state set_state
       set_start_position set_prev_rs_state set_elapsed_steps send
       last_position_on_success accepted telemetry].

Ltac run :=
  unfold reset_with, bind; rewrite Htruth;
  subst state_msg ur5_initial_joint_positions;
  destruct given;
  [rewrite (Hsix eq_refl), Nat.eqb_refl; reduce
  | reduce; destruct (negb _ && _); reduce];
  fold rs_state; fold observation.

(** X8.  When the robot server refuses the state, [reset] raises
    [RobotServerError("set_state")] after the command is in the log, with the
    configuration chosen by precedence (explicit, then last success in
    'continue' mode, then default); [elapsed_steps] is zero and [state] is
    all zeros. *)
Theorem X8_reset_when_the_server_refuses
  (Hrefused : accepted client = false) :
  reset_with fparams sparams client initial_joint_positions type self
  = (Raise (RobotServerError "set_state"),
     mk_env 0 (zeros _get_env_state_len) (prev_rs_state self)
            (start_position self) (last_position_on_success self)
            (SetState state_msg :: sent self)).
Proof.
  run; rewrite Hrefused; reflexivity.
Qed.

(** X9.  When the telemetry has not [_get_robot_server_state_len] entries,
    [reset] raises [InvalidStateError] after it has stored the telemetry,
    NaNs replaced, in [prev_rs_state]; [state] is all zeros. *)
Theorem X9_reset_with_telemetry_of_wrong_length
  (Hacc : accepted client = true)
  (Hlen : length (telemetry client) <> _get_robot_server_state_len) :
  reset_with fparams sparams client initial_joint_positions type self
  = (Raise (InvalidStateError "Robot Server state received has wrong length"),
     mk_env 0 (zeros _get_env_state_len) rs_state
            (start_position self) (last_position_on_success self)
            (SetState state_msg :: sent self)).
Proof.
  assert (Hlen' : Nat.eqb (length rs_state) _get_robot_server_state_len = false).
  { apply Nat.eqb_neq. unfold rs_state. rewrite nan_to_num_length. exact Hlen. }
  run; rewrite Hacc; reduce; rewrite Hlen'; reflexivity.
Qed.

(** X10.  When the observation of the telemetry is outside the observation
    space, [reset] raises [InvalidStateError] after it has overwritten
    [state] with that observation and [start_position] with its components
    3 to 8. *)
Theorem X10_reset_when_the_observation_is_outside
  (Hacc : accepted client = true)
  (Hlen : length (telemetry client) = _get_robot_server_state_len)
  (Hout : contains _get_observation_space observation = false) :
  reset_with fparams sparams client initial_joint_positions type self
  = (Raise (InvalidStateError EmptyString),
     mk_env 0 observation rs_state (slice 3 9 observation)
            (last_position_on_success self)
            (SetState state_msg :: sent self)).
Proof.
  assert (Hlen' : Nat.eqb (length rs_state) _get_robot_server_state_len = true).
  { apply Nat.eqb_eq. unfold rs_state. rewrite nan_to_num_length. exact Hlen. }
  run; rewrite Hacc; reduce; rewrite Hlen'; reduce;
    rewrite Hout; reflexivity.
Qed.

(** X11.  In 'random' mode, or without a last successful position, [reset]
    raises [InvalidStateError] when a joint of the received telemetry is
    farther than the tolerance 0.1 from the range of initial positions; the
    observation and the start position are already stored. *)
Theorem X11_reset_with_joints_out_of_range
  (p0 p1 p2 p3 p4 p5 : R)
  (Hacc : accepted client = true)
  (Hlen : length (telemetry client) = _get_robot_server_state_len)
  (Hobs : contains _get_observation_space observation = true)
  (Hmode : last_position_on_success self = [] \/ type = "random"%string)
  (Hjoints : _ros_joint_list_to_ur5_joint_list (slice 6 12 rs_state)
             = [Num p0; Num p1; Num p2; Num p3; Num p4; Num p5])
  (Hrange : ~ (-0.9 - 0.1 <= p0 <= -0.7 + 0.1 /\ -1.5 - 0.1 <= p1 <= -1.1 + 0.1
               /\ -1.5 - 0.1 <= p2 <= -1.1 + 0.1
               /\ -3.14 - 0.1 <= p3 <= 3.14 + 0.1
               /\ 1.3 - 0.1 <= p4 <= 1.7 + 0.1
               /\ 0.0 - 0.1 <= p5 <= 0.0 + 0.1)) :
  reset_with fparams sparams client initial_joint_positions type self
  = (Raise (InvalidStateError
              "Reset joint positions are not within defined range"),
     mk_env 0 observation rs_state (slice 3 9 observation)
            (last_position_on_success self)
            (SetState state_msg :: sent self)).
Proof.
  assert (Hlen' : Nat.eqb (length rs_state) _get_robot_server_state_len = true).
  { apply Nat.eqb_eq. unfold rs_state. rewrite nan_to_num_length. exact Hlen. }
  assert (Hm : Nat.eqb (length (last_position_on_success self)) 0
               || String.eqb type "random" = true).
  { destruct Hmode as [-> | ->]; [reflexivity |].
    rewrite String.eqb_refl. apply orb_true_r. }
  run; rewrite Hacc; reduce; rewrite Hlen'; reduce;
    rewrite Hobs; reduce; rewrite Hm, Hjoints;
    rewrite (proj2 (check_joint_range_six _ _ _ _ _ _ _) Hrange); reflexivity.
Qed.

(** X12.  In 'continue' mode with a last successful position and no explicit
    configuration, [reset] sends that position and does not check the joints
    against the range of initial positions: it returns the observation
    whenever the server accepts, the telemetry has the right length and its
    observation is in the observation space. *)
Theorem X12_reset_in_continue_mode_skips_the_range_check
  (Hnot_given : given = false)
  (Hcache : last_position_on_success self <> [])
  (Hcontinue : type = "continue"%string)
  (Hacc : accepted client = true)
  (Hlen : length (telemetry client) = _get_robot_server_state_len)
  (Hobs : contains _get_observation_space observation = true) :
  reset_with fparams sparams client initial_joint_positions type self
  = (Ok observation,
     mk_env 0 observation rs_state (slice 3 9 observation)
            (last_position_on_success self)
            (SetState
               (mk_State
                  (set_slice 6 12
                     (_ur_5_joint_list_to_ros_joint_list
                        (last_position_on_success self))
                     (zeros _get_robot_server_state_len))
                  fparams sparams)
               :: sent self)).
Proof.
  assert (Hlen' : Nat.eqb (length rs_state) _get_robot_server_state_len = true).
  { apply Nat.eqb_eq. unfold rs_state. rewrite nan_to_num_length. exact Hlen. }
  assert (Hc : negb (Nat.eqb (length (last_position_on_success self)) 0)
               && String.eqb type "continue" = true).
  { rewrite Hcontinue, String.eqb_refl.
    destruct (last_position_on_success self); [contradiction | reflexivity]. }
  assert (Hm : Nat.eqb (length (last_position_on_success self)) 0
               || String.eqb type "random" = false).
  { rewrite Hcontinue.
    destruct (last_position_on_success self); [contradiction | reflexivity]. }
  unfold reset_with, bind. rewrite Htruth, Hnot_given. reduce.
  rewrite Hc. reduce. fold rs_state. fold observation.
  rewrite Hacc; reduce; rewrite Hlen'; reduce; rewrite Hobs; reduce;
    rewrite Hm. reflexivity.
Qed.

End ResetErrors.

Section ResetReturns.

Context {U : UR5}.

(** A [reset] that returns has passed every check. *)
Lemma reset_returns_inv
  (fparams : list (string * float)) (sparams : list (string * string))
  (client : server) (initial_joint_positions : joints_arg) (type : string)
  (self self' : env) (observation : array) :
  reset_with fparams sparams client initial_joint_positions type self
  = (Ok observation, self') ->
  accepted client = true
  /\ length (telemetry client) = _get_robot_server_state_len
  /\ observation = _robot_server_state_to_env_state (nan_to_num (telemetry client))
  /\ contains _get_observation_space observation = true
  /\ self' = mk_env 0 observation (nan_to_num (telemetry client))
                    (slice 3 9 observation) (last_position_on_success self)
                    (sent self')
  /\ exists m, sent self' = SetState m :: sent self
               /\ float_params m = fparams /\ string_params m = sparams.
Proof.
  unfold reset_with, bind, modify, assert, get, ret, raise.
  cbv beta iota zeta.
  destruct (truth_cases initial_joint_positions
              (set_state (zeros _get_env_state_len) (set_elapsed_steps 0 self)))
    as [[given ->] | ->]; [| discriminate].
  destruct given; cbv beta iota;
    [destruct (Nat.eqb _ 6); cbv beta iota; [| discriminate]
    | destruct (negb _ && _); cbv beta iota];
    (destruct (accepted client); cbv beta iota delta [negb]; [| discriminate];
     destruct (Nat.eqb _ _) eqn:Hlen; cbv beta iota; [| discriminate];
     apply Nat.eqb_eq in Hlen; rewrite nan_to_num_length in Hlen;
     simpl state;
     destruct (contains _get_observation_space _) eqn:Hobs; cbv beta iota;
       [| discriminate];
     destruct (_ || _); cbv beta iota;
     [match goal with
      | |- context [check_joint_range ?j ?l ?h ?e] =>
          pose proof (check_joint_range_frame j l h e) as Hf;
          destruct (check_joint_range j l h e) as [[[]| x] s];
          simpl in Hf; subst s; [| discriminate]
      end |];
     intros H; injection H as <- <-; simpl;
     (repeat split; try assumption; try reflexivity;
      eexists; now repeat split)).
Qed.

(** X13.  Whatever [reset] returns, of either class: the server has accepted
    the state, the telemetry has [_get_robot_server_state_len] entries, and
    the observation returned is that of the telemetry with NaNs replaced; it
    is stored in [state], its components 3 to 8 in [start_position], and it
    is in the observation space: fifteen numbers, the last twelve between
    the binary32 bounds of the box, [-9227469 * 2^-23] and [9227469 * 2^-23]
    (1.1 as the box stores it, a little above 1.1).  [elapsed_steps] is zero
    and exactly one command was sent. *)
Theorem X13_reset_returns_an_observation_of_the_space
  (fparams : list (string * float)) (sparams : list (string * string))
  (client : server) (initial_joint_positions : joints_arg) (type : string)
  (self self' : env) (observation : array)
  (Hreturn : reset_with fparams sparams client initial_joint_positions type self
             = (Ok observation, self')) :
  accepted client = true
  /\ length (telemetry client) = _get_robot_server_state_len
  /\ observation = _robot_server_state_to_env_state (nan_to_num (telemetry client))
  /\ contains _get_observation_space observation = true
  /\ (exists p1 p2 p3 n0 n1 n2 n3 n4 n5 d0 d1 d2 d3 d4 d5 : R,
        observation
        = [Num p1; Num p2; Num p3; Num n0; Num n1; Num n2; Num n3; Num n4;
           Num n5; Num d0; Num d1; Num d2; Num d3; Num d4; Num d5]
        /\ Forall (fun v => - (9227469 / 8388608) <= v <= 9227469 / 8388608)
                  [n0; n1; n2; n3; n4; n5; d0; d1; d2; d3; d4; d5])
  /\ elapsed_steps self' = 0%Z
  /\ state self' = observation
  /\ prev_rs_state self' = nan_to_num (telemetry client)
  /\ start_position self' = slice 3 9 observation
  /\ exists m, sent self' = SetState m :: sent self
               /\ float_params m = fparams /\ string_params m = sparams.
Proof.
  destruct (reset_returns_inv _ _ _ _ _ _ _ _ Hreturn)
    as [Hacc [Hlen [Hobs [Hin [Hself Hsent]]]]].
  rewrite Hself. simpl.
  repeat split; try assumption; try reflexivity.
  now apply observation_space_contains.
Qed.

(** X14.  [reset] called with a numpy array of two or more elements, such as
    the array of six joints its docstring allows, raises [ValueError] at the
    test of its truth value; nothing is sent. *)
Theorem X14_reset_with_an_array_raises
  (fparams : list (string * float)) (sparams : list (string * string))
  (client : server) (a : array) (type : string) (self : env)
  (Hsize : (2 <= length a)%nat) :
  reset_with fparams sparams client (NdArray a) type self
  = (Raise ValueError,
     mk_env 0 (zeros _get_env_state_len) (prev_rs_state self)
            (start_position self) (last_position_on_success self) (sent self)).
Proof.
  destruct a as [|x [|y a]]; simpl in Hsize; try lia. reflexivity.
Qed.

(** X18.  A [reset] that returns followed by a [step] that returns: the step
    is the first of the episode, it leaves the start position that the reset
    has recorded, the log holds the state command and then the action, and
    the episode is done exactly when the collision flag of the step's
    telemetry is 1, with the status 'collision'. *)
Theorem X18_first_step_after_reset
  (fparams : list (string * float)) (sparams : list (string * string))
  (client client' : server) (initial_joint_positions : joints_arg)
  (type : string) (action : array) (self self1 self2 : env)
  (observation observation' : array) (r : float) (done : bool) (i : info)
  (Hreset : reset_with fparams sparams client initial_joint_positions type self
            = (Ok observation, self1))
  (Hstep : step client' action self1 = (Ok (observation', r, done, i), self2)) :
  elapsed_steps self2 = 1%Z
  /\ start_position self2 = slice 3 9 observation
  /\ (exists m, sent self2
                = SendAction (_ur_5_joint_list_to_ros_joint_list
                                (rs_action action))
                    :: SetState m :: sent self)
  /\ (exists flag, nth_error (telemetry client') 25 = Some flag
                   /\ done = feq flag (Num 1))
  /\ (done = true -> final_status i = Some "collision"%string)
  /\ (done = false -> i = mk_info None None).
Proof.
  destruct (reset_returns_inv _ _ _ _ _ _ _ _ Hreset)
    as [_ [_ [_ [_ [Hself1 [m [Hsent _]]]]]]].
  destruct (step_returns_inv _ _ _ _ _ _ _ _ Hstep)
    as [_ [_ [_ [Hreward _]]]].
  rewrite Hself1 in Hreward. simpl in Hreward.
  destruct (nth_error (telemetry client') 25) as [flag|] eqn:Hflag.
  - rewrite (_reward_spec _ _ _ _ Hflag) in Hreward. simpl in Hreward.
    rewrite orb_false_r in Hreward.
    injection Hreward as _ <- <- <-.
    destruct (feq flag (Num 1)) eqn:Hfeq; simpl; rewrite Hsent;
      repeat split; intros; try discriminate; try reflexivity;
      try (exists m; reflexivity); exists flag; now split.
  - unfold _reward, bind, index in Hreward. rewrite Hflag in Hreward.
    discriminate.
Qed.

End ResetReturns.

(** ** What the observation and the reward read of the telemetry *)

Lemma slice_map {A B : Type} (f : A -> B) (i j : nat) (l : list A) :
  slice i j (map f l) = map f (slice i j l).
Proof. unfold slice. now rewrite skipn_map, firstn_map. Qed.

Lemma nth_error_slice {A : Type} (i j k : nat) (l : list A) :
  (k < j - i)%nat -> nth_error (slice i j l) k = nth_error l (i + k).
Proof.
  intros H. unfold slice. rewrite nth_error_firstn.
  destruct (Nat.ltb_spec k (j - i)); [apply nth_error_skipn | lia].
Qed.

Lemma nth_error_zip_with {A B C : Type} (f : A -> B -> C)
  (l : list A) (m : list B) (k : nat) :
  nth_error (zip_with f l m) k
  = match nth_error l k, nth_error m k with
    | Some a, Some b => Some (f a b)
    | _, _ => None
    end.
Proof.
  revert m k. induction l as [|a l IH]; intros [|b m] [|k]; simpl; auto.
  destruct (nth_error l k); reflexivity.
Qed.

(** A sum with a NaN term is NaN, and so is the norm of a vector with a NaN
    component. *)
Lemma sum_nan (l : array) : In NaN l -> sum l = NaN.
Proof.
  induction l as [|a l IH]; simpl; [contradiction |].
  intros [-> | H]; [reflexivity |].
  fold (sum l). rewrite (IH H). destruct a; reflexivity.
Qed.

Lemma norm_nan (l : array) : In NaN l -> norm l = NaN.
Proof.
  intros H. unfold norm. rewrite sum_nan; [reflexivity |].
  unfold square. change NaN with (fsquare NaN). now apply in_map.
Qed.

Section Reads.

Context {U : UR5}.

(** X15.  The observation and the reward read the telemetry at the entries
    of the target position (0 to 2), of the joint positions (6 to 11) and of
    the end effector's pose (18 to 24), and nowhere else: two telemetry
    vectors that agree there have the same observation and, for any action,
    the same reward composition.  The joint velocities and the collision flag
    change neither: a collision is not penalized in the reward. *)
Theorem X15_observation_and_reward_read_pose_and_joints
  (rs_state rs_state' action : array)
  (Htarget : slice 0 3 rs_state = slice 0 3 rs_state')
  (Hjoints : slice 6 12 rs_state = slice 6 12 rs_state')
  (Hposition : slice 18 21 rs_state = slice 18 21 rs_state')
  (Hquaternion : slice 21 25 rs_state = slice 21 25 rs_state') :
  _robot_server_state_to_env_state rs_state
  = _robot_server_state_to_env_state rs_state'
  /\ reward_composition rs_state action = reward_composition rs_state' action.
Proof.
  assert (Hobs : _robot_server_state_to_env_state rs_state
                 = _robot_server_state_to_env_state rs_state').
  { unfold _robot_server_state_to_env_state, nan_to_num.
    rewrite !slice_map, Htarget, Hjoints, Hposition, Hquaternion.
    reflexivity. }
  split; [exact Hobs |].
  unfold reward_composition. rewrite Hobs, Htarget, Hposition. reflexivity.
Qed.

(** X16.  When a coordinate of the target or of the end effector is NaN in
    the telemetry that [_reward] receives, the distance is NaN and neither
    distance term is applied: [dist] and [dist_max] are zero, however close
    the target is. *)
Theorem X16_nan_coordinate_disables_the_distance_terms
  (rs_state action : array) (k : nat)
  (Hlen : (21 <= length rs_state)%nat)
  (Hwhere : (k < 3)%nat \/ (18 <= k < 21)%nat)
  (Hnan : nth_error rs_state k = Some NaN) :
  let c := reward_composition rs_state action in
  distance_to_target c = NaN /\ dist c = Num 0 /\ dist_max c = Num 0.
Proof.
  intros c. subst c.
  assert (Hd : norm (vsub (slice 0 3 rs_state) (slice 18 21 rs_state)) = NaN).
  { apply norm_nan.
    assert (Hsome : forall i, (i < 21)%nat ->
                              exists a, nth_error rs_state i = Some a).
    { intros i Hi. destruct (nth_error rs_state i) as [a|] eqn:Ha; [eauto |].
      apply nth_error_None in Ha. lia. }
    destruct Hwhere as [Hk | Hk].
    - apply (nth_error_In _ k). unfold vsub. rewrite nth_error_zip_with.
      rewrite !nth_error_slice by lia. change (0 + k)%nat with k. rewrite Hnan.
      destruct (Hsome (18 + k)%nat ltac:(lia)) as [b ->]. reflexivity.
    - apply (nth_error_In _ (k - 18)). unfold vsub. rewrite nth_error_zip_with.
      rewrite !nth_error_slice by lia.
      replace (18 + (k - 18))%nat with k by lia. rewrite Hnan.
      destruct (Hsome (0 + (k - 18))%nat ltac:(lia)) as [a ->].
      destruct a; reflexivity. }
  rewrite distance_to_target_eq, dist_eq, dist_max_eq.
  unfold dist_gate, dist_max_gate, fgt. rewrite Hd. now repeat split.
Qed.

(** X17.  The joint command of [step] always has six joints, and an action
    whose length is not 3, 5 or 6 is ignored: the command is the default
    configuration. *)
Theorem X17_rs_action_has_six_joints (action : array) :
  length (rs_action action) = 6%nat
  /\ (length action <> 3%nat -> length action <> 5%nat ->
      length action <> 6%nat ->
      rs_action action = _get_initial_joint_positions).
Proof.
  split.
  - destruct action as [|a0 [|a1 [|a2 [|a3 [|a4 [|a5 [|a6 l]]]]]]]; reflexivity.
  - intros H3 H5 H6. unfold rs_action.
    apply Nat.eqb_neq in H3, H5, H6. now rewrite H3, H5, H6.
Qed.

End Reads.

(** ** The further properties at concrete inputs *)

Lemma resting_in_space :
  contains _get_observation_space
    (@_robot_server_state_to_env_state (Ref.ur5 6) Inputs.resting) = true.
Proof.
  apply (Ref_observation_in_space 6 0.5 0 0 (-1.31) (-1.31) (-0.78) (-2.18)
           1.57 0.0 (Num 0)).
  repeat (apply Forall_cons; [lra |]). apply Forall_nil.
Qed.

Lemma zero_joints_in_space :
  contains _get_observation_space
    (@_robot_server_state_to_env_state (Ref.ur5 6) Cases.zero_joints) = true.
Proof.
  apply (Ref_observation_in_space 6 0.5 0 0 0 0 0 0 0 0 (Num 0)).
  repeat (apply Forall_cons; [lra |]). apply Forall_nil.
Qed.

Lemma far_joint_outside :
  contains _get_observation_space
    (@_robot_server_state_to_env_state (Ref.ur5 6) Cases.far_joint) = false.
Proof.
  destruct (Ref_env_state 6 0.5 0 0 10 (-1.31) (-0.78) (-2.18) 1.57 0.0 (Num 0))
    as [p1 [p2 [p3 Hobs]]].
  change (@_robot_server_state_to_env_state (Ref.ur5 6) Cases.far_joint
          = [Num p1; Num p2; Num p3; Num (-0.78 / 6.28); Num (-1.31 / 6.28);
             Num (10 / 6.28); Num (-2.18 / 6.28); Num (1.57 / 6.28);
             Num (0.0 / 6.28); Num (-0.78 / 6.28 - -0.78 / 6.28);
             Num (-1.31 / 6.28 - -1.31 / 6.28); Num (10 / 6.28 - -1.31 / 6.28);
             Num (-2.18 / 6.28 - -2.18 / 6.28); Num (1.57 / 6.28 - 1.57 / 6.28);
             Num (0.0 / 6.28 - 0.0 / 6.28)]) in Hobs.
  rewrite Hobs. unfold contains. cbn -[Rleb float32].
  rewrite ?float32_low, ?float32_high. compare_reals. reflexivity.
Qed.

(** A step on the resting telemetry with the zero action returns. *)
Lemma resting_step_returns (self : env) :
  @step (Ref.ur5 6) (mk_server true Inputs.resting) Inputs.zero_action self
  = (Ok (@_robot_server_state_to_env_state (Ref.ur5 6) Inputs.resting,
         reward (@reward_composition (Ref.ur5 6) Inputs.resting
                                     Inputs.zero_action),
         (elapsed_steps self + 1 >=? max_episode_steps)%Z,
         if (elapsed_steps self + 1 >=? max_episode_steps)%Z
         then mk_info (Some "success"%string) (Some Inputs.far_target)
         else mk_info None None),
     mk_env (elapsed_steps self + 1)
            (@_robot_server_state_to_env_state (Ref.ur5 6) Inputs.resting)
            Inputs.resting (start_position self)
            (if (elapsed_steps self + 1 >=? max_episode_steps)%Z
             then [] else last_position_on_success self)
            (SendAction (Ref.swap_0_2 (rs_action Inputs.zero_action))
               :: sent self)).
Proof.
  rewrite (@step_run (Ref.ur5 6) (mk_server true Inputs.resting)
             Inputs.zero_action self contains_zero_action eq_refl
             resting_in_space).
  simpl telemetry.
  rewrite (@_reward_spec (Ref.ur5 6) Inputs.resting Inputs.zero_action _
             (Num 0) eq_refl).
  simpl feq. rewrite Reqb_false by lra. simpl.
  destruct (elapsed_steps self + 1 >=? max_episode_steps)%Z; reflexivity.
Qed.

(** A reset on the resting telemetry with no explicit configuration
    returns. *)
Lemma resting_reset_returns (self : env) (type : string) :
  last_position_on_success self = [] ->
  @reset (Ref.ur5 6) (Num 0.2) (Num 0.4) (mk_server true Inputs.resting)
         PyNone type self
  = (Ok (@_robot_server_state_to_env_state (Ref.ur5 6) Inputs.resting),
     mk_env 0 (@_robot_server_state_to_env_state (Ref.ur5 6) Inputs.resting)
            Inputs.resting
            (slice 3 9 (@_robot_server_state_to_env_state (Ref.ur5 6)
                          Inputs.resting))
            []
            (SetState
               (mk_State
                  (set_slice 6 12 Inputs.ros_default (zeros 26))
                  [("x", Num 0.13); ("y", Num (-0.30)); ("z_amplitude", Num 0.2);
                   ("z_frequency", Num 0.125); ("z_offset", Num 0.4)]%string
                  [("function", "triangle_wave")]%string)
               :: sent self)).
Proof.
  intros Hcache.
  assert (Hrun := @reset_with_run (Ref.ur5 6)
            [("x", Num 0.13); ("y", Num (-0.30)); ("z_amplitude", Num 0.2);
             ("z_frequency", Num 0.125); ("z_offset", Num 0.4)]%string
            [("function", "triangle_wave")]%string
            (mk_server true Inputs.resting) PyNone type self false).
  cbv zeta in Hrun.
  change (nan_to_num (telemetry (mk_server true Inputs.resting)))
    with Inputs.resting in Hrun.
  specialize (Hrun eq_refl ltac:(discriminate) eq_refl eq_refl
                resting_in_space default_joints_in_range).
  rewrite Hcache in Hrun. exact Hrun.
Qed.

Lemma X3_refusing_server_witness :
  contains (@_get_action_space (Ref.ur5 6)) Inputs.zero_action = true
  /\ accepted Cases.refusing = false
  /\ @step (Ref.ur5 6) Cases.refusing Inputs.zero_action Inputs.fresh
     = (Raise (RobotServerError "send_action"),
        mk_env 1 [] [] [] []
               [SendAction (Ref.swap_0_2 (rs_action Inputs.zero_action))]).
Proof.
  split; [exact contains_zero_action | split; [reflexivity |]].
  exact (@X3_step_when_the_server_refuses (Ref.ur5 6) Cases.refusing
           Inputs.zero_action Inputs.fresh contains_zero_action eq_refl).
Defined.

Lemma X4_far_joint_witness :
  contains (@_get_action_space (Ref.ur5 6)) Inputs.zero_action = true
  /\ contains _get_observation_space
       (@_robot_server_state_to_env_state (Ref.ur5 6) Cases.far_joint) = false
  /\ @step (Ref.ur5 6) (mk_server true Cases.far_joint) Inputs.zero_action
           Inputs.fresh
     = (Raise (InvalidStateError EmptyString),
        mk_env 1 (@_robot_server_state_to_env_state (Ref.ur5 6) Cases.far_joint)
               Cases.far_joint [] []
               [SendAction (Ref.swap_0_2 (rs_action Inputs.zero_action))]).
Proof.
  split; [exact contains_zero_action | split; [exact far_joint_outside |]].
  exact (@X4_step_when_the_observation_is_outside (Ref.ur5 6)
           (mk_server true Cases.far_joint) Inputs.zero_action Inputs.fresh
           contains_zero_action eq_refl far_joint_outside).
Defined.

Lemma X5_resting_step_witness :
  exists (r : float) (self' : env),
    @step (Ref.ur5 6) (mk_server true Inputs.resting) Inputs.zero_action
          Inputs.fresh
    = (Ok (@_robot_server_state_to_env_state (Ref.ur5 6) Inputs.resting, r,
           false, mk_info None None), self')
    /\ contains _get_observation_space
         (@_robot_server_state_to_env_state (Ref.ur5 6) Inputs.resting) = true.
Proof.
  eexists. eexists.
  assert (Hrun := resting_step_returns Inputs.fresh).
  split; [exact Hrun |].
  exact (proj1 (proj2 (proj2
           (@X5_step_returns_an_observation_of_the_space (Ref.ur5 6) _ _ _ _ _
              _ _ _ Hrun)))).
Defined.

Lemma X6_last_step_witness :
  exists (r : float) (self' : env),
    @step (Ref.ur5 6) (mk_server true Inputs.resting) Inputs.zero_action
          Cases.at_999
    = (Ok (@_robot_server_state_to_env_state (Ref.ur5 6) Inputs.resting, r,
           true, mk_info (Some "success"%string) (Some Inputs.far_target)),
       self')
    /\ last_position_on_success self' = [].
Proof.
  eexists. eexists.
  assert (Hrun := resting_step_returns Cases.at_999).
  split; [exact Hrun |].
  destruct (@X6_step_termination (Ref.ur5 6) _ _ _ _ _ _ _ _ Hrun)
    as [flag [_ [_ [Hmax _]]]].
  apply Hmax. unfold max_episode_steps. simpl. lia.
Defined.

Lemma X8_refusing_server_witness :
  accepted Cases.refusing = false
  /\ @reset (Ref.ur5 6) (Num 0.2) (Num 0.4) Cases.refusing PyNone "random"
            Inputs.fresh
     = (Raise (RobotServerError "set_state"),
        mk_env 0 (zeros 15) [] [] []
          [SetState
             (mk_State
                (set_slice 6 12 Inputs.ros_default (zeros 26))
                [("x", Num 0.13); ("y", Num (-0.30)); ("z_amplitude", Num 0.2);
                 ("z_frequency", Num 0.125); ("z_offset", Num 0.4)]%string
                [("function", "triangle_wave")]%string)]).
Proof.
  split; [reflexivity |].
  exact (@X8_reset_when_the_server_refuses (Ref.ur5 6) _ _ Cases.refusing
           PyNone "random" Inputs.fresh false eq_refl
           (fun H => False_ind _ (Bool.diff_false_true H)) eq_refl).
Defined.

Lemma X9_truncated_telemetry_witness :
  length Cases.truncated <> @_get_robot_server_state_len (Ref.ur5 6)
  /\ fst (@reset (Ref.ur5 6) (Num 0.2) (Num 0.4)
                 (mk_server true Cases.truncated) PyNone "random" Inputs.fresh)
     = Raise (InvalidStateError "Robot Server state received has wrong length").
Proof.
  assert (Hlen : length Cases.truncated <> @_get_robot_server_state_len (Ref.ur5 6))
    by discriminate.
  split; [exact Hlen |].
  unfold reset.
  rewrite (@X9_reset_with_telemetry_of_wrong_length (Ref.ur5 6) _ _
             (mk_server true Cases.truncated) PyNone "random" Inputs.fresh
             false eq_refl
             (fun H => False_ind _ (Bool.diff_false_true H)) eq_refl Hlen).
  reflexivity.
Defined.

Lemma X10_far_joint_witness :
  contains _get_observation_space
    (@_robot_server_state_to_env_state (Ref.ur5 6) Cases.far_joint) = false
  /\ exists self',
       @reset (Ref.ur5 6) (Num 0.2) (Num 0.4) (mk_server true Cases.far_joint)
              PyNone "random" Inputs.fresh
       = (Raise (InvalidStateError EmptyString), self')
       /\ state self'
          = @_robot_server_state_to_env_state (Ref.ur5 6) Cases.far_joint
       /\ start_position self'
          = slice 3 9 (@_robot_server_state_to_env_state (Ref.ur5 6)
                         Cases.far_joint).
Proof.
  split; [exact far_joint_outside |].
  eexists. split.
  - exact (@X10_reset_when_the_observation_is_outside (Ref.ur5 6) _ _
             (mk_server true Cases.far_joint) PyNone "random" Inputs.fresh
             false eq_refl
             (fun H => False_ind _ (Bool.diff_false_true H)) eq_refl eq_refl
             far_joint_outside).
  - split; reflexivity.
Defined.

Lemma X11_zero_joints_witness :
  ~ (-0.9 - 0.1 <= 0 <= -0.7 + 0.1 /\ -1.5 - 0.1 <= 0 <= -1.1 + 0.1
     /\ -1.5 - 0.1 <= 0 <= -1.1 + 0.1 /\ -3.14 - 0.1 <= 0 <= 3.14 + 0.1
     /\ 1.3 - 0.1 <= 0 <= 1.7 + 0.1 /\ 0.0 - 0.1 <= 0 <= 0.0 + 0.1)
  /\ fst (@reset (Ref.ur5 6) (Num 0.2) (Num 0.4)
                 (mk_server true Cases.zero_joints) PyNone "random"
                 Inputs.fresh)
     = Raise (InvalidStateError
                "Reset joint positions are not within defined range").
Proof.
  assert (Hrange :
    ~ (-0.9 - 0.1 <= 0 <= -0.7 + 0.1 /\ -1.5 - 0.1 <= 0 <= -1.1 + 0.1
       /\ -1.5 - 0.1 <= 0 <= -1.1 + 0.1 /\ -3.14 - 0.1 <= 0 <= 3.14 + 0.1
       /\ 1.3 - 0.1 <= 0 <= 1.7 + 0.1 /\ 0.0 - 0.1 <= 0 <= 0.0 + 0.1))
    by (intros H; lra).
  split; [exact Hrange |].
  unfold reset.
  rewrite (@X11_reset_with_joints_out_of_range (Ref.ur5 6) _ _
             (mk_server true Cases.zero_joints) PyNone "random" Inputs.fresh
             false eq_refl
             (fun H => False_ind _ (Bool.diff_false_true H))
             0 0 0 0 0 0 eq_refl eq_refl zero_joints_in_space
             (or_introl eq_refl) eq_refl Hrange).
  reflexivity.
Defined.

Lemma X12_continue_witness :
  last_position_on_success Cases.with_cache <> []
  /\ exists self',
       @reset (Ref.ur5 6) (Num 0.2) (Num 0.4)
              (mk_server true Cases.zero_joints) PyNone "continue"
              Cases.with_cache
       = (Ok (@_robot_server_state_to_env_state (Ref.ur5 6) Cases.zero_joints),
          self')
       /\ exists m, sent self' = [SetState m]
                    /\ slice 6 12 (msg_state m) = zeros 6.
Proof.
  assert (Hcache : last_position_on_success Cases.with_cache <> [])
    by discriminate.
  split; [exact Hcache |].
  eexists. split.
  - exact (@X12_reset_in_continue_mode_skips_the_range_check (Ref.ur5 6) _ _
             (mk_server true Cases.zero_joints) PyNone "continue"
             Cases.with_cache false eq_refl eq_refl Hcache eq_refl eq_refl
             eq_refl zero_joints_in_space).
  - eexists. split; reflexivity.
Defined.

Lemma X13_resting_reset_witness :
  exists self',
    @reset (Ref.ur5 6) (Num 0.2) (Num 0.4) (mk_server true Inputs.resting)
           PyNone "random" Inputs.fresh
    = (Ok (@_robot_server_state_to_env_state (Ref.ur5 6) Inputs.resting), self')
    /\ contains _get_observation_space
         (@_robot_server_state_to_env_state (Ref.ur5 6) Inputs.resting) = true
    /\ elapsed_steps self' = 0%Z.
Proof.
  eexists.
  assert (Hrun := resting_reset_returns Inputs.fresh "random" eq_refl).
  split; [exact Hrun |]. unfold reset in Hrun.
  destruct (@X13_reset_returns_an_observation_of_the_space (Ref.ur5 6) _ _ _ _
              _ _ _ _ Hrun) as [_ [_ [_ [Hin [_ [Hzero _]]]]]].
  split; [exact Hin | exact Hzero].
Defined.

Lemma X14_array_of_six_witness :
  (2 <= length _get_initial_joint_positions)%nat
  /\ @reset (Ref.ur5 6) (Num 0.2) (Num 0.4) (mk_server true Inputs.resting)
            (NdArray _get_initial_joint_positions) "random" Inputs.fresh
     = (Raise ValueError, mk_env 0 (zeros 15) [] [] [] []).
Proof.
  assert (Hsize : (2 <= length _get_initial_joint_positions)%nat)
    by (simpl; lia).
  split; [exact Hsize |].
  exact (@X14_reset_with_an_array_raises (Ref.ur5 6) _ _
           (mk_server true Inputs.resting) _get_initial_joint_positions
           "random" Inputs.fresh Hsize).
Defined.

Lemma X15_velocities_and_flag_witness :
  Cases.moving <> Inputs.colliding
  /\ @_robot_server_state_to_env_state (Ref.ur5 6) Cases.moving
     = @_robot_server_state_to_env_state (Ref.ur5 6) Inputs.colliding
  /\ @reward_composition (Ref.ur5 6) Cases.moving Inputs.zero_action
     = @reward_composition (Ref.ur5 6) Inputs.colliding Inputs.zero_action.
Proof.
  split.
  - intros H. apply (f_equal (fun l => nth_error l 25)) in H. cbn in H.
    injection H as H. apply R1_neq_R0. symmetry. exact H.
  - exact (@X15_observation_and_reward_read_pose_and_joints (Ref.ur5 6)
             Cases.moving Inputs.colliding Inputs.zero_action
             eq_refl eq_refl eq_refl eq_refl).
Defined.

Lemma X16_nan_target_witness :
  (21 <= length Cases.nan_target)%nat
  /\ nth_error Cases.nan_target 0 = Some NaN
  /\ dist (@reward_composition (Ref.ur5 6) Cases.nan_target Inputs.zero_action)
     = Num 0
  /\ dist_max (@reward_composition (Ref.ur5 6) Cases.nan_target
                                   Inputs.zero_action)
     = Num 0.
Proof.
  assert (Hlen : (21 <= length Cases.nan_target)%nat) by (simpl; lia).
  assert (Hwhere : (0 < 3)%nat \/ (18 <= 0 < 21)%nat) by (left; lia).
  split; [exact Hlen | split; [reflexivity |]].
  exact (proj2 (@X16_nan_coordinate_disables_the_distance_terms (Ref.ur5 6)
                  Cases.nan_target Inputs.zero_action 0 Hlen Hwhere eq_refl)).
Defined.

Lemma X18_reset_then_step_witness :
  exists (r : float) (self1 self2 : env),
    @reset (Ref.ur5 6) (Num 0.2) (Num 0.4) (mk_server true Inputs.resting)
           PyNone "random" Inputs.fresh
    = (Ok (@_robot_server_state_to_env_state (Ref.ur5 6) Inputs.resting), self1)
    /\ @step (Ref.ur5 6) (mk_server true Inputs.resting) Inputs.zero_action
             self1
       = (Ok (@_robot_server_state_to_env_state (Ref.ur5 6) Inputs.resting, r,
              false, mk_info None None), self2)
    /\ elapsed_steps self2 = 1%Z.
Proof.
  eexists. eexists. eexists.
  assert (Hreset := resting_reset_returns Inputs.fresh "random" eq_refl).
  split; [exact Hreset |].
  match type of Hreset with
  | _ = (_, ?s) => assert (Hstep := resting_step_returns s)
  end.
  split; [exact Hstep |]. unfold reset in Hreset.
  exact (proj1 (@X18_first_step_after_reset (Ref.ur5 6) _ _ _ _ _ _ _ _ _ _ _
                  _ _ _ _ Hreset Hstep)).
Defined.

(** ** The sign and the maximum of the reward *)

(** A sum of absolute values, or of squares, is zero exactly when every
    term is the number zero. *)
Lemma sum_square_nonneg (l : array) (s : R) :
  sum (square l) = Num s -> 0 <= s.
Proof.
  revert s. induction l as [|a l IH]; intros s H.
  - simpl in H. injection H as <-. lra.
  - change (sum (square (a :: l))) with (fadd (fsquare a) (sum (square l))) in H.
    destruct a as [|v]; [discriminate |].
    destruct (sum (square l)) as [|t]; [discriminate |].
    simpl in H. injection H as <-. specialize (IH t eq_refl). nra.
Qed.

Lemma sum_vabs_zero (l : array) :
  sum (vabs l) = Num 0 <-> l = zeros (length l).
Proof.
  induction l as [|a l IH]; [simpl; tauto |].
  change (sum (vabs (a :: l))) with (fadd (fabs a) (sum (vabs l))).
  change (zeros (length (a :: l))) with (Num 0 :: zeros (length l)).
  split.
  - intros H. destruct a as [|v]; [discriminate |].
    destruct (sum (vabs l)) as [|t] eqn:Ht; [discriminate |].
    simpl in H. injection H as H.
    pose proof (sum_vabs_nonneg _ _ Ht). pose proof (Rabs_pos v).
    assert (Ht0 : t = 0) by lra. subst t.
    assert (Hv : v = 0).
    { destruct (Req_dec v 0) as [Hv | Hv]; [exact Hv |].
      pose proof (Rabs_pos_lt v Hv). lra. }
    subst v. f_equal. now apply IH.
  - intros H. injection H as -> Hl. apply IH in Hl. rewrite Hl.
    simpl. f_equal. rewrite Rabs_R0. lra.
Qed.

Lemma sum_square_zero (l : array) :
  sum (square l) = Num 0 <-> l = zeros (length l).
Proof.
  induction l as [|a l IH]; [simpl; tauto |].
  change (sum (square (a :: l))) with (fadd (fsquare a) (sum (square l))).
  change (zeros (length (a :: l))) with (Num 0 :: zeros (length l)).
  split.
  - intros H. destruct a as [|v]; [discriminate |].
    destruct (sum (square l)) as [|t] eqn:Ht; [discriminate |].
    simpl in H. injection H as H.
    pose proof (sum_square_nonneg _ _ Ht).
    assert (Ht0 : t = 0) by nra. subst t.
    assert (Hv : v = 0) by nra.
    subst v. f_equal. now apply IH.
  - intros H. injection H as -> Hl. apply IH in Hl. rewrite Hl.
    simpl. f_equal. lra.
Qed.

Section RewardShape.

Context {U : UR5} {F : UR5Facts U}.

(** The three terms as numbers, for a telemetry vector with its joint
    positions and an action of the action space. *)
Lemma reward_terms (rs_state action : array) :
  (12 <= length rs_state)%nat ->
  action_dim <> 0%nat ->
  contains _get_action_space action = true ->
  exists s q : R,
    0 <= q <= INR (length action) /\ 0 < INR (length action)
    /\ sum (square action) = Num q
    /\ act_r (reward_composition rs_state action)
       = Num ((1 - q / INR (length action)) / 1000)
    /\ (dr_gate rs_state = true ->
        sum (vabs (last_n 6 (_robot_server_state_to_env_state rs_state)))
        = Num s
        /\ 0 <= s < 0.5
        /\ dr (reward_composition rs_state action) = Num ((1 - s / 0.5) / 1000))
    /\ (dr_gate rs_state = false ->
        dr (reward_composition rs_state action) = Num 0).
Proof.
  intros Hlen Hdim Hbox.
  destruct (act_r_in_box rs_state action Hdim Hbox) as [_ [q [Hq [Hqb Hact]]]].
  assert (Hn : 0 < INR (length action)).
  { apply action_space_contains in Hbox. destruct Hbox as [Hl _].
    apply lt_0_INR. lia. }
  destruct (dr_gate rs_state) eqn:Hg.
  - destruct (dr_when_gated rs_state action Hlen Hg) as [s [Hs [Hsb Hdr]]].
    exists s, q. repeat split; try assumption; try lra; discriminate.
  - exists 0, q. repeat split; try assumption; try lra; try discriminate.
    intros _. rewrite dr_eq, Hg. reflexivity.
Qed.

Lemma ratio_in_unit (q n : R) : 0 <= q <= n -> 0 < n -> 0 <= q / n <= 1.
Proof.
  intros Hq Hn. split.
  - apply Rmult_le_pos; [lra | left; now apply Rinv_0_lt_compat].
  - apply (Rmult_le_reg_r n); [exact Hn |].
    unfold Rdiv. rewrite Rmult_assoc, Rinv_l by lra. lra.
Qed.

(** X19.  For a telemetry vector with its joint positions and an action of
    the action space, the sign of the reward is decided by the distance: it
    is never positive when the target is closer than 0.3, and never negative
    otherwise. *)
Theorem X19_sign_of_the_reward (rs_state action : array)
  (Hlen : (12 <= length rs_state)%nat)
  (Hdim : action_dim <> 0%nat)
  (Hbox : contains _get_action_space action = true) :
  exists r : R,
    reward (reward_composition rs_state action) = Num r
    /\ (dist_gate rs_state = true -> -2 / 1000 <= r <= 0)
    /\ (dist_gate rs_state = false -> 0 <= r <= 2 / 1000).
Proof.
  destruct (reward_terms rs_state action Hlen Hdim Hbox)
    as [s [q [Hqb [Hn [Hq [Hact [Hdr1 Hdr0]]]]]]].
  pose proof (ratio_in_unit _ _ Hqb Hn) as Hratio.
  rewrite reward_eq, Hact, dist_eq.
  destruct (dr_gate rs_state).
  - destruct (Hdr1 eq_refl) as [_ [Hsb ->]].
    destruct (dist_gate rs_state); simpl; eexists;
      (split; [reflexivity | split; intros; try discriminate; lra]).
  - rewrite (Hdr0 eq_refl).
    destruct (dist_gate rs_state); simpl; eexists;
      (split; [reflexivity | split; intros; try discriminate; lra]).
Qed.

(** X20.  For such a telemetry vector and action the reward attains its
    maximum [2/1000] when the joints are at the default configuration (the six
    deltas of the observation are zero), the action is zero and the target is
    not closer than 0.3. *)
Theorem X20_maximal_reward (rs_state action : array)
  (Hlen : (12 <= length rs_state)%nat)
  (Hdim : action_dim <> 0%nat)
  (Hbox : contains _get_action_space action = true)
  (Hrest : last_n 6 (_robot_server_state_to_env_state rs_state) = zeros 6)
  (Hzero : action = zeros (length action))
  (Hfar : dist_gate rs_state = false) :
  reward (reward_composition rs_state action) = Num (2 / 1000).
Proof.
  destruct (reward_terms rs_state action Hlen Hdim Hbox)
    as [s [q [Hqb [Hn [Hq [Hact [Hdr1 Hdr0]]]]]]].
  assert (Hsix : length (last_n 6 (_robot_server_state_to_env_state rs_state))
                 = 6%nat).
  { rewrite env_state_last_6 by exact Hlen. now apply delta_joints_length. }
  rewrite <- Hsix in Hrest at 2.
  apply sum_vabs_zero in Hrest. apply sum_square_zero in Hzero.
  rewrite Hq in Hzero. injection Hzero as ->.
  rewrite reward_eq, Hact, dist_eq, Hfar.
  destruct (dr_gate rs_state) eqn:Hg.
  - destruct (Hdr1 eq_refl) as [Hs [Hsb ->]].
    rewrite Hrest in Hs. injection Hs as <-.
    simpl. f_equal. unfold Rdiv. lra.
  - exfalso. unfold dr_gate in Hg. rewrite Hrest in Hg.
    simpl in Hg. rewrite Rltb_true in Hg by lra. discriminate.
Qed.

End RewardShape.

Lemma resting_deltas_are_zero :
  last_n 6 (@_robot_server_state_to_env_state (Ref.ur5 6) Inputs.resting)
  = zeros 6.
Proof.
  destruct (Ref_env_state 6 0.5 0 0 (-1.31) (-1.31) (-0.78) (-2.18) 1.57 0.0
              (Num 0)) as [p1 [p2 [p3 Hobs]]].
  change (@_robot_server_state_to_env_state (Ref.ur5 6) Inputs.resting
          = [Num p1; Num p2; Num p3; Num (-0.78 / 6.28); Num (-1.31 / 6.28);
             Num (-1.31 / 6.28); Num (-2.18 / 6.28); Num (1.57 / 6.28);
             Num (0.0 / 6.28); Num (-0.78 / 6.28 - -0.78 / 6.28);
             Num (-1.31 / 6.28 - -1.31 / 6.28); Num (-1.31 / 6.28 - -1.31 / 6.28);
             Num (-2.18 / 6.28 - -2.18 / 6.28); Num (1.57 / 6.28 - 1.57 / 6.28);
             Num (0.0 / 6.28 - 0.0 / 6.28)]) in Hobs.
  rewrite Hobs. unfold last_n, zeros. simpl.
  repeat f_equal; lra.
Qed.

Lemma resting_is_far : dist_gate Inputs.resting = false.
Proof.
  assert (Hd := distance_on_axis 0.5 Inputs.ros_default (Num 0)
                  Inputs.zero_action).
  rewrite distance_to_target_eq in Hd. unfold dist_gate.
  change (norm (vsub (slice 0 3 Inputs.resting) (slice 18 21 Inputs.resting)))
    with (norm (vsub (slice 0 3 (Inputs.telemetry_of [Num 0.5; Num 0; Num 0]
                                   Inputs.ros_default (Num 0)))
                     (slice 18 21 (Inputs.telemetry_of [Num 0.5; Num 0; Num 0]
                                     Inputs.ros_default (Num 0))))).
  rewrite Hd by (try lra; reflexivity). simpl. apply Rltb_false. lra.
Qed.

Lemma X19_resting_witness :
  (12 <= length Inputs.resting)%nat
  /\ @action_dim (Ref.ur5 6) <> 0%nat
  /\ contains (@_get_action_space (Ref.ur5 6)) Inputs.zero_action = true
  /\ exists r : R,
       reward (@reward_composition (Ref.ur5 6) Inputs.resting Inputs.zero_action)
       = Num r
       /\ 0 <= r <= 2 / 1000.
Proof.
  assert (Hlen : (12 <= length Inputs.resting)%nat) by (simpl; lia).
  assert (Hdim : @action_dim (Ref.ur5 6) <> 0%nat) by discriminate.
  split; [exact Hlen | split; [exact Hdim | split; [exact contains_zero_action |]]].
  destruct (@X19_sign_of_the_reward (Ref.ur5 6) (Ref_facts 6) Inputs.resting
              Inputs.zero_action Hlen Hdim contains_zero_action)
    as [r [Hr [_ Hfar]]].
  exists r. split; [exact Hr | exact (Hfar resting_is_far)].
Defined.

Lemma X20_resting_witness :
  (12 <= length Inputs.resting)%nat
  /\ @action_dim (Ref.ur5 6) <> 0%nat
  /\ contains (@_get_action_space (Ref.ur5 6)) Inputs.zero_action = true
  /\ reward (@reward_composition (Ref.ur5 6) Inputs.resting Inputs.zero_action)
     = Num (2 / 1000).
Proof.
  assert (Hlen : (12 <= length Inputs.resting)%nat) by (simpl; lia).
  assert (Hdim : @action_dim (Ref.ur5 6) <> 0%nat) by discriminate.
  split; [exact Hlen | split; [exact Hdim | split; [exact contains_zero_action |]]].
  apply (@X20_maximal_reward (Ref.ur5 6) (Ref_facts 6) Inputs.resting
           Inputs.zero_action Hlen Hdim contains_zero_action).
  - exact resting_deltas_are_zero.
  - reflexivity.
  - exact resting_is_far.
Defined.
